(** * Dual-camera market research scripts: collector and enricher

    A shallow embedding of the two Python scripts of the repository,

    - [research_dual_camera_apps.py] (the collector: App Store searches,
      competitor de-duplication and ranking), and
    - [detailed_feature_research.py] (the enricher: review download,
      keyword classification of reviews, merge of the static taxonomies),

    together with the properties of the review classifier, of the
    competitor aggregation and of the fetch functions.

    Conventions of the embedding.
    - JSON / Python values are the inductive [value]; a [dict] is an
      association list in insertion order (the order [json.dump] writes).
    - A Python exception is a result [Raise e] of the error monad [res].
    - Text is ASCII text: [str.lower] maps the letters A-Z, one character
      is one [ascii].
    - JSON numbers with a fraction are rationals ([Q]); Python compares
      ints and finite floats by their exact value, which is the order of
      [Q].
    - [print] appends a line to a log, [requests.get] consults a network
      oracle; [time.sleep] has no observable effect and is left out. *)

From stdpp Require Import base option list gmap sets strings sorting.
From Stdlib Require Import ZArith QArith Ascii String Sorted Permutation Lia.

Open Scope string_scope.
Open Scope Z_scope.
Open Scope list_scope.

(** ** Python values and exceptions *)

Module Py.

Inductive exn : Type :=
| AttributeError
| KeyError
| TypeError
| ValueError
| RequestException      (* raised by [requests.get]: no connection, timeout *)
| JSONDecodeError.      (* raised by [response.json()] *)

Inductive res (A : Type) : Type :=
| Ok (a : A)
| Raise (e : exn).
Arguments Ok {A} a.
Arguments Raise {A} e.

Definition bind {A B : Type} (m : res A) (k : A -> res B) : res B :=
  match m with
  | Ok a => k a
  | Raise e => Raise e
  end.

Notation "'let*' x := m 'in' k" := (bind m (fun x => k))
  (at level 10, x pattern, m at level 100, k at level 200).

Definition is_ok {A : Type} (m : res A) : bool :=
  match m with Ok _ => true | Raise _ => false end.

#[warnings="-register-all"]
Inductive value : Type :=
| VNone
| VBool (b : bool)
| VInt (z : Z)
| VFloat (q : Q)
| VStr (s : string)
| VList (l : list value)
| VDict (d : list (string * value)).

(** Lookup of a key in a dict body. *)
Fixpoint assoc (k : string) (d : list (string * value)) : option value :=
  match d with
  | [] => None
  | (k', v) :: d' => if String.eqb k k' then Some v else assoc k d'
  end.

(** [d[k] = v] on a dict body: an existing key keeps its position, a new
    key goes to the end. *)
Fixpoint assoc_set (k : string) (v : value) (d : list (string * value))
  : list (string * value) :=
  match d with
  | [] => [(k, v)]
  | (k', v') :: d' =>
      if String.eqb k k' then (k', v) :: d' else (k', v') :: assoc_set k v d'
  end.

(** [x.get(k, default)]: only a dict has the method. *)
Definition dict_get (x : value) (k : string) (default : value) : res value :=
  match x with
  | VDict d => Ok (match assoc k d with Some v => v | None => default end)
  | _ => Raise AttributeError
  end.

(** [x[k]] with a string key. *)
Definition getitem (x : value) (k : string) : res value :=
  match x with
  | VDict d => match assoc k d with Some v => Ok v | None => Raise KeyError end
  | _ => Raise TypeError
  end.

(** [x[k1][k2]] *)
Definition getitem2 (x : value) (k1 k2 : string) : res value :=
  let* y := getitem x k1 in
  getitem y k2.

(** [x[k] = v] with a string key. *)
Definition setitem (x : value) (k : string) (v : value) : res value :=
  match x with
  | VDict d => Ok (VDict (assoc_set k v d))
  | _ => Raise TypeError
  end.

(** *** Text *)

(** [str.lower] on ASCII text, where it maps A-Z and keeps the length;
    text with other characters is outside the model. *)
Definition lower_ascii (c : ascii) : ascii :=
  let n := nat_of_ascii c in
  if ((65 <=? n)%nat && (n <=? 90)%nat)%bool then ascii_of_nat (n + 32) else c.

Fixpoint lower (s : string) : string :=
  match s with
  | EmptyString => EmptyString
  | String c s' => String (lower_ascii c) (lower s')
  end.

(** [x.lower()]: only a str has the method. *)
Definition str_lower (x : value) : res string :=
  match x with
  | VStr s => Ok (lower s)
  | _ => Raise AttributeError
  end.

(** [s[:n]] *)
Fixpoint take_str (n : nat) (s : string) : string :=
  match n, s with
  | S n', String c s' => String c (take_str n' s')
  | _, _ => EmptyString
  end.

(** [needle in hay] for two strs. *)
Fixpoint contains (needle hay : string) : bool :=
  String.prefix needle hay ||
  match hay with
  | EmptyString => false
  | String _ hay' => contains needle hay'
  end.

(** [any(keyword in text for keyword in keywords)] *)
Definition any_keyword (keywords : list string) (text : string) : bool :=
  existsb (fun keyword => contains keyword text) keywords.

(** *** [int(x)] *)

(** The blanks [int] skips at both ends of an ASCII str: tab, line feed,
    vertical tab, form feed, carriage return and space. *)
Definition is_space (c : ascii) : bool :=
  let n := nat_of_ascii c in
  ((9 <=? n)%nat && (n <=? 13)%nat) || (n =? 32)%nat.

Definition digit_of (c : ascii) : option Z :=
  let n := nat_of_ascii c in
  if ((48 <=? n)%nat && (n <=? 57)%nat)%bool then Some (Z.of_nat n - 48) else None.

Fixpoint lstrip (s : list ascii) : list ascii :=
  match s with
  | c :: s' => if is_space c then lstrip s' else s
  | [] => []
  end.

Definition strip (s : list ascii) : list ascii :=
  rev (lstrip (rev (lstrip s))).

(** Digits with single underscores between them; [prev] tells whether the
    previous character was a digit, [n] counts the digits read. *)
Fixpoint parse_digits (acc : Z) (n : nat) (prev : bool) (s : list ascii)
  : option (Z * nat) :=
  match s with
  | [] => if prev then Some (acc, n) else None
  | c :: s' =>
      match digit_of c with
      | Some d => parse_digits (10 * acc + d) (S n) true s'
      | None =>
          if (Ascii.eqb c "_" && prev)%bool then parse_digits acc n false s'
          else None
      end
  end.

(** The default of [sys.int_max_str_digits]. *)
Definition int_max_str_digits : nat := 4300.

Definition int_of_string (s : string) : res Z :=
  let body := strip (list_ascii_of_string s) in
  let '(sign, digits) :=
    match body with
    | "-"%char :: r => (-1, r)
    | "+"%char :: r => (1, r)
    | _ => (1, body)
    end in
  match parse_digits 0 0 false digits with
  | Some (z, n) =>
      if (n <=? int_max_str_digits)%nat then Ok (sign * z) else Raise ValueError
  | None => Raise ValueError
  end.

(** A plain decimal literal: digits only, at least one, within the limit. *)
Definition is_digit (c : ascii) : bool :=
  match digit_of c with Some _ => true | None => false end.

Definition decimal (s : string) : bool :=
  match list_ascii_of_string s with
  | [] => false
  | digits =>
      forallb is_digit digits
      && (List.length digits <=? int_max_str_digits)%nat
  end.

Definition py_int (x : value) : res Z :=
  match x with
  | VStr s => int_of_string s
  | VInt z => Ok z
  | VBool b => Ok (if b then 1 else 0)
  | VFloat q => Ok (Z.quot (Qnum q) (Z.pos (Qden q)))
  | VNone | VList _ | VDict _ => Raise TypeError
  end.

(** *** Truth value, slices, iteration, membership *)

(** The truth value of [x] in [if x] and [x and ...]. *)
Definition truthy (x : value) : bool :=
  match x with
  | VNone => false
  | VBool b => b
  | VInt z => negb (z =? 0)
  | VFloat q => negb (Qeq_bool q 0)
  | VStr s => negb (String.eqb s "")
  | VList l => match l with [] => false | _ => true end
  | VDict d => match d with [] => false | _ => true end
  end.

(** [x[:n]]; a dict raises too ([TypeError] up to Python 3.11, [KeyError]
    from 3.12 on: the model keeps the former). *)
Definition slice_to (n : nat) (x : value) : res value :=
  match x with
  | VList l => Ok (VList (take n l))
  | VStr s => Ok (VStr (take_str n s))
  | _ => Raise TypeError
  end.

(** The items a [for] loop over [x] visits. *)
Definition iterate (x : value) : res (list value) :=
  match x with
  | VList l => Ok l
  | VStr s =>
      Ok (map (fun c => VStr (String c EmptyString)) (list_ascii_of_string s))
  | VDict d => Ok (map (fun kv => VStr (fst kv)) d)
  | _ => Raise TypeError
  end.

(** [needle in x] for a str [needle]. *)
Definition str_in (needle : string) (x : value) : res bool :=
  match x with
  | VStr s => Ok (contains needle s)
  | VList l =>
      Ok (existsb (fun y => match y with
                            | VStr s => String.eqb needle s
                            | _ => false
                            end) l)
  | VDict d => Ok (existsb (fun kv => String.eqb needle (fst kv)) d)
  | _ => Raise TypeError
  end.

End Py.

Import Py.

(** ** The network and the console *)

Module Net.

(** What one [requests.get] call meets: no answer at all, or an answer
    with a status code and a body that is JSON for a [B] or is not. *)
Inductive outcome (B : Type) : Type :=
| Failed
| Response (status_code : Z) (body : option B).
Arguments Failed {B}.
Arguments Response {B} status_code body.

Definition requests_get {B : Type} (o : outcome B) : res (Z * option B) :=
  match o with
  | Failed => Raise RequestException
  | Response status_code body => Ok (status_code, body)
  end.

Definition response_json {B : Type} (response : Z * option B) : res B :=
  match snd response with
  | Some data => Ok data
  | None => Raise JSONDecodeError
  end.

(** A line [print(f"<prefix>: {e}")] of an [except] clause.  The progress
    lines of the scripts are not recorded. *)
Definition line : Type := string * exn.

Definition io (A : Type) : Type := list line -> A * list line.

(** The shape shared by [search_app_store], [get_app_details] and
    [search_reddit]:
<<
    try:
        response = requests.get(...)
        if response.status_code == 200:
            return response.json()
    except Exception as e:
        print(f"<prefix>: {e}")
    return None
>> *)
Definition fetch_json {B : Type} (prefix : string) (o : outcome B)
  : io (res (option B)) :=
  fun log =>
    let attempt :=
      let* response := requests_get o in
      if fst response =? 200 then
        let* data := response_json response in
        Ok (Some data)
      else Ok None in
    match attempt with
    | Ok r => (Ok r, log)
    | Raise e => (Ok None, log ++ [(prefix, e)])
    end.

(** The data a request delivers: the body of a 200 answer that is JSON. *)
Definition delivered {B : Type} (o : outcome B) : option B :=
  match o with
  | Response status_code (Some data) =>
      if status_code =? 200 then Some data else None
  | _ => None
  end.

(** The lines [fetch_json] prints for a request. *)
Definition logged {B : Type} (prefix : string) (o : outcome B) : list line :=
  match o with
  | Failed => [(prefix, RequestException)]
  | Response status_code None =>
      if status_code =? 200 then [(prefix, JSONDecodeError)] else []
  | Response _ (Some _) => []
  end.

(** A request that failed: no answer, or an answer that is not 200. *)
Definition failed {B : Type} (o : outcome B) : bool :=
  match o with
  | Failed => true
  | Response status_code _ => negb (status_code =? 200)
  end.

End Net.

Import Net.

(** ** The enricher, [detailed_feature_research.py] *)

Module Enricher.

(** The three lists [analyze_reviews] appends to. *)
Record buckets : Type := Buckets {
  complaints : list value;
  features_requested : list value;
  positive_features : list value
}.

Definition no_buckets : buckets := Buckets [] [] [].

Definition feature_keywords : list string :=
  ["wish"; "need"; "should"; "add"; "feature"; "want"; "would like"; "missing"].

Definition positive_keywords : list string :=
  ["love"; "great"; "awesome"; "best"; "perfect"; "amazing"; "excellent"].

(** [review.get(field, {}).get('label', default)] *)
Definition label_of (review : value) (field : string) (default : value)
  : res value :=
  let* entry := dict_get review field (VDict []) in
  dict_get entry "label" default.

(** [content = review.get('content', {}).get('label', '').lower()] *)
Definition review_content (review : value) : res string :=
  let* label := label_of review "content" (VStr "") in
  str_lower label.

(** [title = review.get('title', {}).get('label', '').lower()] *)
Definition review_title (review : value) : res string :=
  let* label := label_of review "title" (VStr "") in
  str_lower label.

(** [rating = int(review.get('im:rating', {}).get('label', '0'))] *)
Definition review_rating (review : value) : res Z :=
  let* label := label_of review "im:rating" (VStr "0") in
  py_int label.

(** [full_text = f"{title} {content}"] *)
Definition full_text (title content : string) : string :=
  (title ++ " " ++ content)%string.

Definition complaint_record (rating : Z) (title : value) (content : string)
  : value :=
  VDict [("rating", VInt rating); ("title", title);
         ("snippet", VStr (take_str 200 content))].

Definition text_record (rating : Z) (content : string) : value :=
  VDict [("rating", VInt rating); ("text", VStr (take_str 200 content))].

(** One iteration of the loop of [analyze_reviews]. *)
Definition analyze_step (b : buckets) (review : value) : res buckets :=
  let* content := review_content review in
  let* title := review_title review in
  let* rating := review_rating review in
  let text := full_text title content in
  let* complaints' :=
    if (rating <=? 3)%Z then
      let* raw_title := label_of review "title" (VStr "") in
      Ok (complaints b ++ [complaint_record rating raw_title content])
    else Ok (complaints b) in
  let features' :=
    if any_keyword feature_keywords text
    then features_requested b ++ [text_record rating content]
    else features_requested b in
  let positive' :=
    if (4 <=? rating)%Z then
      if any_keyword positive_keywords text
      then positive_features b ++ [text_record rating content]
      else positive_features b
    else positive_features b in
  Ok (Buckets complaints' features' positive').

Fixpoint analyze_loop (b : buckets) (reviews : list value) : res buckets :=
  match reviews with
  | [] => Ok b
  | review :: rest =>
      let* b' := analyze_step b review in
      analyze_loop b' rest
  end.

Definition analyze_reviews (reviews : list value)
  : res (list value * list value * list value) :=
  let* b := analyze_loop no_buckets reviews in
  Ok (complaints b, features_requested b, positive_features b).

(** The iteration placed a record at the end of a bucket. *)
Definition placed (before after : list value) : Prop :=
  exists record, after = before ++ [record].

(** A review field the classifier can read: the entry is missing, or it is
    an object whose label is missing or accepted. *)
Definition field_ok (review : value) (field : string)
  (accept : value -> bool) : bool :=
  match review with
  | VDict d =>
      match assoc field d with
      | None => true
      | Some (VDict entry) =>
          match assoc "label" entry with
          | None => true
          | Some label => accept label
          end
      | Some _ => false
      end
  | _ => false
  end.

Definition is_str (x : value) : bool :=
  match x with VStr _ => true | _ => false end.

Definition is_int_literal (x : value) : bool := is_ok (py_int x).

Definition well_formed (review : value) : bool :=
  field_ok review "content" is_str &&
  field_ok review "title" is_str &&
  field_ok review "im:rating" is_int_literal.

(** The text a bucket record stores, under [snippet] or under [text]. *)
Definition stored_text (record : value) : res value :=
  match getitem record "snippet" with
  | Ok t => Ok t
  | Raise _ => getitem record "text"
  end.

Definition capped (record : value) : bool :=
  match stored_text record with
  | Ok (VStr t) => (String.length t <=? 200)%nat
  | _ => false
  end.

Fixpoint repeat_char (c : ascii) (n : nat) : string :=
  match n with
  | O => EmptyString
  | S n' => String c (repeat_char c n')
  end.

(** *** [get_app_reviews] *)

(** The body of the page loop; [net app_id page] is the answer to the
    request for that page of the reviews feed. *)
Definition page_step (net : value -> nat -> outcome value) (app_id : value)
  (page : nat) (all_reviews : list value) : res (list value) :=
  let* response := requests_get (net app_id page) in
  if fst response =? 200 then
    let* data := response_json response in
    let* feed := dict_get data "feed" (VDict []) in
    let* entries := dict_get feed "entry" (VList []) in
    match entries with
    | VList l => Ok (all_reviews ++ l)
    | VDict _ => Ok (all_reviews ++ [entries])
    | _ => Ok all_reviews
    end
  else Ok all_reviews.

(** The [for] loop inside the [try]: it ends at the first exception, and
    [all_reviews] keeps what the earlier pages added. *)
Fixpoint pages_loop (net : value -> nat -> outcome value) (app_id : value)
  (pages : list nat) (all_reviews : list value) : list value * option exn :=
  match pages with
  | [] => (all_reviews, None)
  | page :: rest =>
      match page_step net app_id page all_reviews with
      | Ok all_reviews' => pages_loop net app_id rest all_reviews'
      | Raise e => (all_reviews, Some e)
      end
  end.

Definition get_app_reviews (net : value -> nat -> outcome value)
  (app_id : value) (max_pages : nat) : io (res (list value)) :=
  fun log =>
    match pages_loop net app_id (seq 1 max_pages) [] with
    | (all_reviews, None) => (Ok all_reviews, log)
    | (all_reviews, Some e) =>
        (Ok all_reviews, log ++ [("Error fetching reviews", e)])
    end.

(** *** The static taxonomies *)

(** [research_pricing_models()] *)
Definition research_pricing_models : value :=
  VDict [
     ("freemium",
      VDict [
         ("description",
          VStr "Free download with in-app purchases or subscriptions");
         ("examples",
          VList [
             VStr "MixCam";
             VStr "DoubleTake";
             VStr "Fotee CamFusion"]);
         ("typical_features",
          VList [
             VStr "Free basic recording";
             VStr "Pro features locked (4K, no watermark, advanced editing)";
             VStr "Subscription: $2.99-9.99/month or $19.99-49.99/year"])]);
     ("paid_upfront",
      VDict [
         ("description",
          VStr "One-time purchase");
         ("examples",
          VList [
             VStr "ProCam";
             VStr "Cadrage";
             VStr "ProShot"]);
         ("typical_prices",
          VStr "$4.99-19.99")]);
     ("hybrid",
      VDict [
         ("description",
          VStr "Paid app with additional IAPs");
         ("examples",
          VList [
             VStr "FilmicPro";
             VStr "ProMovie"]);
         ("model",
          VStr "Initial purchase + optional premium features")])].

(** [identify_standard_features_2025()] *)
Definition identify_standard_features_2025 : value :=
  VDict [
     ("core_features",
      VList [
         VStr "Simultaneous front and back camera recording";
         VStr "Picture-in-picture (PiP) and split-screen layouts";
         VStr "4K resolution support on both cameras";
         VStr "HDR and Dolby Vision recording";
         VStr "Real-time switching between camera views";
         VStr "Multiple aspect ratios (16:9, 9:16, 1:1, 4:3)";
         VStr "Grid overlays and composition guides"]);
     ("quality_features",
      VList [
         VStr "60fps recording support";
         VStr "Optical and digital zoom on both cameras";
         VStr "Manual focus, exposure, and white balance controls";
         VStr "Low-light enhancement";
         VStr "Image stabilization";
         VStr "ProRes and LOG recording options"]);
     ("editing_features",
      VList [
         VStr "Built-in video trimming and merging";
         VStr "Audio mixing and noise reduction";
         VStr "Filters and color grading presets";
         VStr "Text and sticker overlays";
         VStr "Background blur/bokeh effects";
         VStr "Speed controls (slow motion, time lapse)"]);
     ("sharing_features",
      VList [
         VStr "Direct export to social media (TikTok, Instagram, YouTube)";
         VStr "Cloud storage integration";
         VStr "Export in multiple resolutions";
         VStr "Live streaming capability";
         VStr "QR code sharing"]);
     ("ui_features",
      VList [
         VStr "Gesture-based controls";
         VStr "Dark mode support";
         VStr "Customizable recording interface";
         VStr "Quick settings access";
         VStr "One-tap recording start"])].

(** [identify_innovative_features_2025()] *)
Definition identify_innovative_features_2025 : value :=
  VDict [
     ("ai_features",
      VList [
         VStr "AI-powered scene detection and optimization";
         VStr "Automatic subject tracking across both cameras";
         VStr "AI background replacement and augmentation";
         VStr "Intelligent audio enhancement";
         VStr "Auto-highlight reel generation"]);
     ("advanced_capture",
      VList [
         VStr "RAW photo capture from video frames";
         VStr "Multi-camera angle recording (3+ cameras via external devices)";
         VStr "360-degree camera integration";
         VStr "LiDAR-based depth effects";
         VStr "Spatial video recording (Vision Pro compatible)"]);
     ("collaboration",
      VList [
         VStr "Remote camera control (control friend's phone as second camera)";
         VStr "Multi-device sync for group recordings";
         VStr "Real-time collaborative editing";
         VStr "Live director mode for multiple camera angles"]);
     ("creative_tools",
      VList [
         VStr "AR effects and filters on both cameras simultaneously";
         VStr "Green screen/chroma key support";
         VStr "Split-screen with different time offsets";
         VStr "Audio reactivity and visualization";
         VStr "Gesture-triggered recording controls"]);
     ("professional",
      VList [
         VStr "External monitor support";
         VStr "Waveform and vectorscope displays";
         VStr "Timecode synchronization";
         VStr "LUT import and export";
         VStr "Direct integration with professional NLEs"])].

(** [research_ui_trends_2025()] *)
Definition research_ui_trends_2025 : value :=
  VDict [
     ("design_trends",
      VList [
         VStr "Liquid glass morphism/glassmorphism effects";
         VStr "Neumorphism for tactile controls";
         VStr "Dynamic Island integration (iPhone 14+)";
         VStr "Adaptive layouts that respond to device orientation";
         VStr "Minimalist interfaces with hidden advanced controls"]);
     ("interaction_patterns",
      VList [
         VStr "Swipe gestures for quick mode switching";
         VStr "Long-press for additional options";
         VStr "Floating/movable control panels";
         VStr "Voice commands for hands-free operation";
         VStr "3D Touch/Haptic feedback for confirmation"]);
     ("visual_elements",
      VList [
         VStr "Translucent backgrounds with blur effects";
         VStr "Animated transitions between states";
         VStr "Real-time preview effects";
         VStr "Color-coded modes and settings";
         VStr "Contextual tooltips and onboarding"]);
     ("accessibility",
      VList [
         VStr "Voice-over optimization";
         VStr "High contrast modes";
         VStr "Large touch targets";
         VStr "Simplified 'Easy Mode' interfaces";
         VStr "Customizable button layouts"])].

(** *** [main] *)

(** The test of the competitor loop,
    ['Dual' in competitor['name'] or '2Cam' in ... or 'Fotee' in ...]. *)
Definition competitor_test (competitor : value) : res bool :=
  let* name := getitem competitor "name" in
  let* dual := str_in "Dual" name in
  if dual then Ok true else
  let* name := getitem competitor "name" in
  let* cam := str_in "2Cam" name in
  if cam then Ok true else
  let* name := getitem competitor "name" in
  str_in "Fotee" name.

Fixpoint competitor_loop (competitors : list value) : res unit :=
  match competitors with
  | [] => Ok tt
  | competitor :: rest =>
      let* _ := competitor_test competitor in
      competitor_loop rest
  end.

(** [data[outer][inner] = v].  The nested dict is updated in place; a
    document read by [json.load] shares no dict between two places, so
    the update shows under [outer] only. *)
Definition set_nested (data : value) (outer inner : string) (v : value)
  : res value :=
  let* target := getitem data outer in
  let* target' := setitem target inner v in
  setitem data outer target'.

(** [main] from the analysis of the reviews on; the result is the
    document handed to [json.dump]. *)
Definition enrich (data : value) (reviews : list value) : res value :=
  let* (complaints, feature_requests, positive) := analyze_reviews reviews in
  let* competitors := getitem data "competitors" in
  let* top := slice_to 5 competitors in
  let* items := iterate top in
  let* _ := competitor_loop items in
  let* data := set_nested data "market_insights" "standard_features"
                 identify_standard_features_2025 in
  let* data := set_nested data "market_insights" "innovative_features"
                 identify_innovative_features_2025 in
  let* data := set_nested data "market_insights" "pricing_models"
                 research_pricing_models in
  let* data := set_nested data "market_insights" "ui_trends"
                 research_ui_trends_2025 in
  set_nested data "mixcam" "review_analysis"
    (VDict [("total_reviews_analyzed", VInt (Z.of_nat (List.length reviews)));
            ("complaints", VList (take 10 complaints));
            ("feature_requests", VList (take 10 feature_requests));
            ("positive_mentions", VList (take 10 positive))]).

(** [main], given the document [json.load] returned. *)
Definition main (net : value -> nat -> outcome value) (data : value)
  : io (res value) :=
  fun log =>
    match getitem2 data "mixcam" "app_id" with
    | Raise e => (Raise e, log)
    | Ok mixcam_id =>
        match get_app_reviews net mixcam_id 5 log with
        | (Raise e, log') => (Raise e, log')
        | (Ok reviews, log') => (enrich data reviews, log')
        end
    end.

(** *** Views of the results *)

(** The integer a bucket record stores under [rating]. *)
Definition stored_rating (record : value) : option Z :=
  match getitem record "rating" with
  | Ok (VInt n) => Some n
  | _ => None
  end.

(** What one page adds to [all_reviews], when its iteration does not
    raise. *)
Definition page_reviews (net : value -> nat -> outcome value)
  (app_id : value) (page : nat) : list value :=
  match page_step net app_id page [] with
  | Ok entries => entries
  | Raise _ => []
  end.

(** The keys of a dict, in the order [json.dump] writes them. *)
Definition keys (x : value) : list string :=
  match x with
  | VDict d => map fst d
  | _ => []
  end.

End Enricher.

(** ** The collector, [research_dual_camera_apps.py] *)

Module Collector.

(** An app object of the search API, with the fields [main] reads;
    [None] is a key the object does not have. *)
Record app : Type := App {
  trackId : option Z;
  trackName : option string;
  artistName : option string;
  formattedPrice : option string;
  averageUserRating : option Q;
  userRatingCount : option Z;
  version : option string;
  currentVersionReleaseDate : option string;
  description : option string;
  bundleId : option string;
  fileSizeBytes : option string;
  minimumOsVersion : option string;
  genres : option (list string)
}.

(** The body of a search answer; [results] is its ['results'] entry. *)
Record search_response : Type := SearchResponse {
  results : option (list app)
}.

(** What a competitor record holds under ['rating']: the number of the
    API, or the str ['N/A']. *)
Inductive rating_value : Type :=
| Number (q : Q)
| NotAvailable.

Definition rating_of (a : app) : rating_value :=
  match averageUserRating a with
  | Some q => Number q
  | None => NotAvailable
  end.

(** The dict stored under [research_data['mixcam']]. *)
Module Mixcam.

Record t : Type := Build {
  name : option string;
  developer : option string;
  price : string;
  rating : rating_value;
  rating_count : Z;
  version : string;
  release_date : string;
  description : string;
  app_id : option Z;
  bundle_id : option string;
  size : string;
  min_ios : string;
  categories : list string
}.

Definition of_app (a : app) : t :=
  {| name := trackName a;
     developer := artistName a;
     price := default "N/A" (formattedPrice a);
     rating := rating_of a;
     rating_count := default 0 (userRatingCount a);
     version := default "N/A" (Collector.version a);
     release_date := default "N/A" (currentVersionReleaseDate a);
     description := take_str 500 (default "" (Collector.description a));
     app_id := trackId a;
     bundle_id := bundleId a;
     size := default "N/A" (fileSizeBytes a);
     min_ios := default "N/A" (minimumOsVersion a);
     categories := default [] (genres a) |}.

End Mixcam.

(** The dict built for one competitor; [None] is Python's [None]. *)
Record competitor : Type := Competitor {
  name : option string;
  developer : option string;
  price : string;
  rating : rating_value;
  rating_count : Z;
  competitor_version : string;
  description_snippet : string;
  categories : list string
}.

Definition search_app_store (net : string -> outcome search_response)
  (query : string) : io (res (option search_response)) :=
  fetch_json "App Store search error" (net query).

Definition get_app_details {B : Type} (net : Z -> outcome B) (app_id : Z)
  : io (res (option B)) :=
  fetch_json "App details error" (net app_id).

Definition search_reddit {B : Type} (net : string -> outcome B)
  (query : string) : io (res (option B)) :=
  fetch_json "Reddit search error" (net query).

Definition search_terms : list string :=
  ["dual camera recording";
   "front back camera simultaneous";
   "double camera video";
   "multicam recording iOS"].

Definition competitor_of (a : app) : competitor :=
  {| name := trackName a;
     developer := artistName a;
     price := default "N/A" (formattedPrice a);
     rating := rating_of a;
     rating_count := default 0 (userRatingCount a);
     competitor_version := default "N/A" (version a);
     description_snippet := take_str 200 (default "" (description a));
     categories := default [] (genres a) |}.

(** The apps the loops under [if results and results.get('results')]
    visit. *)
Definition apps_of (found : option search_response) : list app :=
  match found with
  | Some response => default [] (results response)
  | None => []
  end.

(** *** Stage 1: the target app *)

(** ['mixcam' in app.get('trackName', '').lower()] *)
Definition is_mixcam (a : app) : bool :=
  contains "mixcam" (lower (default "" (trackName a))).

(** The loop that fills [research_data['mixcam']] and breaks at the first
    match; [None] is the dict left empty. *)
Definition find_mixcam (found : option search_response) : option Mixcam.t :=
  Mixcam.of_app <$> List.find is_mixcam (apps_of found).

(** *** Stage 2: the competitors *)

(** [seen_apps] and [research_data['competitors']] during the loops. *)
Record collection : Type := Collection {
  seen_apps : gset Z;
  competitors : list competitor
}.

Definition nothing_collected : collection := Collection ∅ [].

(** The body of [for app in results['results']]. *)
Definition add_app (st : collection) (a : app) : collection :=
  match trackId a with
  | Some app_id =>
      if negb (app_id =? 0) && bool_decide (app_id ∉ seen_apps st) then
        {| seen_apps := {[app_id]} ∪ seen_apps st;
           competitors := competitors st ++ [competitor_of a] |}
      else st
  | None => st
  end.

(** [if results and results.get('results'): for app in ...] *)
Definition add_results (st : collection) (found : option search_response)
  : collection :=
  match found with
  | Some response =>
      match results response with
      | Some (a :: apps) => fold_left add_app (a :: apps) st
      | Some [] | None => st
      end
  | None => st
  end.

(** [for term in search_terms] *)
Fixpoint collect_loop (net : string -> outcome search_response)
  (terms : list string) (st : collection) : io (res collection) :=
  fun log =>
    match terms with
    | [] => (Ok st, log)
    | term :: rest =>
        match search_app_store net term log with
        | (Ok found, log') => collect_loop net rest (add_results st found) log'
        | (Raise e, log') => (Raise e, log')
        end
    end.

(** *** Ranking *)

(** [key=lambda x: (x.get('rating', 0), x.get('rating_count', 0))]; both
    keys are in every record [competitor_of] builds. *)
Definition sort_key (x : competitor) : rating_value * Z :=
  (rating x, rating_count x).

(** [a == b] on what ['rating'] holds. *)
Definition rating_eq (a b : rating_value) : bool :=
  match a, b with
  | Number p, Number q => Qeq_bool p q
  | NotAvailable, NotAvailable => true
  | _, _ => false
  end.

(** [a < b] on what ['rating'] holds; a number and a str do not compare. *)
Definition rating_lt (a b : rating_value) : res bool :=
  match a, b with
  | Number p, Number q => Ok (negb (Qle_bool q p))
  | NotAvailable, NotAvailable => Ok false
  | _, _ => Raise TypeError
  end.

(** [a < b] on the key tuples: the first items that differ decide. *)
Definition key_lt (a b : rating_value * Z) : res bool :=
  if rating_eq (fst a) (fst b) then Ok (snd a <? snd b)
  else rating_lt (fst a) (fst b).

(** [list.sort] is a stable ascending sort; it is modelled by insertion
    from the left, each item going behind the items that are not greater.
    With [reverse=True] the list is reversed before and after.  Which
    comparisons a sort makes is its own business, but the comparisons of
    any sort connect all the items, so with the keys of [sort_key] every
    sort meets a number and ['N/A'] exactly when the list holds both. *)
Fixpoint insert (x : competitor) (sorted : list competitor)
  : res (list competitor) :=
  match sorted with
  | [] => Ok [x]
  | y :: sorted' =>
      let* less := key_lt (sort_key x) (sort_key y) in
      if less then Ok (x :: y :: sorted')
      else
        let* placed := insert x sorted' in
        Ok (y :: placed)
  end.

Fixpoint sort_loop (sorted rest : list competitor) : res (list competitor) :=
  match rest with
  | [] => Ok sorted
  | x :: rest' =>
      let* sorted' := insert x sorted in
      sort_loop sorted' rest'
  end.

(** [sorted(l, key=..., reverse=True)] *)
Definition sorted_reverse (l : list competitor) : res (list competitor) :=
  let* ascending := sort_loop [] (rev l) in
  Ok (rev ascending).

(** [sorted(research_data['competitors'], ...)[:10]] *)
Definition rank (l : list competitor) : res (list competitor) :=
  let* ranking := sorted_reverse l in
  Ok (take 10 ranking).

(** *** Stage 3: the discussions *)

Definition reddit_queries : list string :=
  ["dual camera app iOS 2025";
   "mixcam app review";
   "best dual camera recording app"].

(** The body of [for post in reddit_data['data']['children'][:3]]; the
    printed line needs [title[:80]]. *)
Definition post_step (post : value) : res unit :=
  let* post_data := dict_get post "data" (VDict []) in
  let* title := dict_get post_data "title" (VStr "") in
  let* selftext := dict_get post_data "selftext" (VStr "") in
  let* shown := slice_to 80 title in
  Ok tt.

Fixpoint post_loop (posts : list value) : res unit :=
  match posts with
  | [] => Ok tt
  | post :: rest =>
      let* _ := post_step post in
      post_loop rest
  end.

(** [if reddit_data and reddit_data.get('data', {}).get('children'): ...] *)
Definition show_posts (found : option value) : res unit :=
  match found with
  | None => Ok tt
  | Some reddit_data =>
      if truthy reddit_data then
        let* data := dict_get reddit_data "data" (VDict []) in
        let* children := dict_get data "children" VNone in
        if truthy children then
          let* data := getitem reddit_data "data" in
          let* children := getitem data "children" in
          let* top := slice_to 3 children in
          let* posts := iterate top in
          post_loop posts
        else Ok tt
      else Ok tt
  end.

(** [for query in reddit_queries] *)
Fixpoint reddit_loop (net : string -> outcome value) (queries : list string)
  : io (res unit) :=
  fun log =>
    match queries with
    | [] => (Ok tt, log)
    | query :: rest =>
        match search_reddit net query log with
        | (Ok found, log') =>
            match show_posts found with
            | Ok _ => reddit_loop net rest log'
            | Raise e => (Raise e, log')
            end
        | (Raise e, log') => (Raise e, log')
        end
    end.

(** *** [main] *)

(** The document [main] writes and returns; [ranked_competitors] is
    [research_data['competitors']] after the ranking, and the five lists
    of [market_insights] stay empty. *)
Record research_data : Type := ResearchData {
  research_date : string;
  mixcam : option Mixcam.t;
  ranked_competitors : list competitor;
  market_insights : list (string * list value)
}.

Definition main (app_store : string -> outcome search_response)
  (reddit : string -> outcome value) : io (res research_data) :=
  fun log =>
    match search_app_store app_store "mixcam dual camera" log with
    | (Raise e, log1) => (Raise e, log1)
    | (Ok mixcam_results, log1) =>
        match collect_loop app_store search_terms nothing_collected log1 with
        | (Raise e, log2) => (Raise e, log2)
        | (Ok st, log2) =>
            match rank (competitors st) with
            | Raise e => (Raise e, log2)
            | Ok ranked =>
                match reddit_loop reddit reddit_queries log2 with
                | (Raise e, log3) => (Raise e, log3)
                | (Ok _, log3) =>
                    (Ok {| research_date := "October 24, 2025";
                           mixcam := find_mixcam mixcam_results;
                           ranked_competitors := ranked;
                           market_insights :=
                             [("standard_features", []);
                              ("innovative_features", []);
                              ("user_complaints", []);
                              ("pricing_models", []);
                              ("ui_trends", [])] |},
                     log3)
                end
            end
        end
    end.

(** *** The aggregation as the specification words it *)

(** The raw results accumulated over the queries, in the order met. *)
Definition raw_results (net : string -> outcome search_response)
  (terms : list string) : list app :=
  flat_map (fun term => apps_of (delivered (net term))) terms.

(** Keeps, for each identifier, the first app that carries it. *)
Fixpoint first_occurrences (seen : list Z) (apps : list app) : list app :=
  match apps with
  | [] => []
  | a :: apps' =>
      match trackId a with
      | Some i =>
          if bool_decide (i ∈ seen) then first_occurrences seen apps'
          else a :: first_occurrences (i :: seen) apps'
      | None => first_occurrences seen apps'
      end
  end.

Definition has_id (i : Z) (a : app) : bool :=
  match trackId a with
  | Some j => i =? j
  | None => false
  end.

(** The identifiers the test [if app_id] lets through. *)
Definition nonzero_id (a : app) : bool :=
  match trackId a with
  | Some i => negb (i =? 0)
  | None => false
  end.

(** An absent rating counts as 0. *)
Definition rating_or_0 (r : rating_value) : Q :=
  match r with
  | Number q => q
  | NotAvailable => 0%Q
  end.

(** The order of the ranking keys, rating first, count second. *)
Definition key_ltb (a b : rating_value * Z) : bool :=
  if Qeq_bool (rating_or_0 (fst a)) (rating_or_0 (fst b))
  then snd a <? snd b
  else negb (Qle_bool (rating_or_0 (fst b)) (rating_or_0 (fst a))).

Definition key_eqb (a b : rating_value * Z) : bool :=
  Qeq_bool (rating_or_0 (fst a)) (rating_or_0 (fst b)) && (snd a =? snd b).

(** [s] is [l] in descending order of the keys, items with the same key
    in the order they have in [l]. *)
Definition stable_descending_sort (l s : list competitor) : Prop :=
  Permutation l s /\
  StronglySorted (fun x y => key_ltb (sort_key x) (sort_key y) = false) s /\
  forall k, List.filter (fun x => key_eqb (sort_key x) k) s
          = List.filter (fun x => key_eqb (sort_key x) k) l.

(** The records of one kind: all rated, or all unrated. *)
Definition rated (x : competitor) : bool :=
  match rating x with Number _ => true | NotAvailable => false end.

Definition one_kind (l : list competitor) : bool :=
  forallb rated l || forallb (fun x => negb (rated x)) l.

(** *** The document as [json.dump] writes it *)

(** [research_data] is written to [app_store_data.json] and read back by
    the enricher; the functions below give the written dicts, key by
    key. *)
Definition optional_str (s : option string) : value :=
  match s with
  | Some s => VStr s
  | None => VNone
  end.

(** The number of the API is written as a number; the model does not
    tell an int from a float here, and the enricher does not read it. *)
Definition rating_to_value (r : rating_value) : value :=
  match r with
  | Number q => VFloat q
  | NotAvailable => VStr "N/A"
  end.

Definition competitor_to_value (c : competitor) : value :=
  VDict [("name", optional_str (name c));
         ("developer", optional_str (developer c));
         ("price", VStr (price c));
         ("rating", rating_to_value (rating c));
         ("rating_count", VInt (rating_count c));
         ("version", VStr (competitor_version c));
         ("description_snippet", VStr (description_snippet c));
         ("categories", VList (map VStr (categories c)))].

Definition mixcam_to_value (m : option Mixcam.t) : value :=
  match m with
  | None => VDict []
  | Some m =>
      VDict [("name", optional_str (Mixcam.name m));
             ("developer", optional_str (Mixcam.developer m));
             ("price", VStr (Mixcam.price m));
             ("rating", rating_to_value (Mixcam.rating m));
             ("rating_count", VInt (Mixcam.rating_count m));
             ("version", VStr (Mixcam.version m));
             ("release_date", VStr (Mixcam.release_date m));
             ("description", VStr (Mixcam.description m));
             ("app_id", match Mixcam.app_id m with
                        | Some i => VInt i
                        | None => VNone
                        end);
             ("bundle_id", optional_str (Mixcam.bundle_id m));
             ("size", VStr (Mixcam.size m));
             ("min_ios", VStr (Mixcam.min_ios m));
             ("categories", VList (map VStr (Mixcam.categories m)))]
  end.

Definition document_to_value (d : research_data) : value :=
  VDict [("research_date", VStr (research_date d));
         ("mixcam", mixcam_to_value (mixcam d));
         ("competitors", VList (map competitor_to_value (ranked_competitors d)));
         ("market_insights",
          VDict (map (fun kv => (fst kv, VList (snd kv))) (market_insights d)))].

(** A competitor record with a name, as the enricher needs it. *)
Definition named (c : competitor) : bool :=
  match name c with
  | Some _ => true
  | None => false
  end.

End Collector.

(** ** Sample inputs *)

Module Samples.

Import Enricher Collector.

Definition entry (label : value) : value := VDict [("label", label)].

(** A two-star review that asks for a feature. *)
Definition low_review : value :=
  VDict [("title", entry (VStr "Crashes"));
         ("content", entry (VStr "I WISH it saved both videos"));
         ("im:rating", entry (VStr "2"))].

(** A five-star review with praise. *)
Definition high_review : value :=
  VDict [("title", entry (VStr "Great app"));
         ("content", entry (VStr "Love the split screen"));
         ("im:rating", entry (VStr "5"))].

(** A review with none of the three fields. *)
Definition bare_review : value := VDict [].

(** A review whose rating label is not an integer literal. *)
Definition worded_review : value :=
  VDict [("title", entry (VStr "ok"));
         ("content", entry (VStr "fine"));
         ("im:rating", entry (VStr "five"))].

(** A one-star review whose content is 500 capital letters. *)
Definition shouting_review : value :=
  VDict [("content", entry (VStr (repeat_char "A" 500)));
         ("im:rating", entry (VStr "1"))].

(** A document as the collector writes it. *)
Definition sample_document : value :=
  VDict [("research_date", VStr "October 24, 2025");
         ("mixcam", VDict [("name", VStr "MixCam"); ("app_id", VInt 1234)]);
         ("competitors",
          VList [VDict [("name", VStr "DualCam Pro"); ("rating", VStr "N/A")]]);
         ("market_insights",
          VDict [("standard_features", VList []);
                 ("innovative_features", VList []);
                 ("user_complaints", VList []);
                 ("pricing_models", VList []);
                 ("ui_trends", VList [])])].

(** The first page of the feed holds two reviews, the second one review
    as a single entry, the third is not found and the others do not
    answer. *)
Definition reviews_net : value -> nat -> outcome value :=
  fun _ page =>
    match page with
    | 1%nat =>
        Response 200
          (Some (VDict [("feed",
                         VDict [("entry", VList [low_review; high_review])])]))
    | 2%nat =>
        Response 200 (Some (VDict [("feed", VDict [("entry", bare_review)])]))
    | 3%nat => Response 404 None
    | _ => Failed
    end.

Definition plain_app (i : option Z) (r : option Q) (n : Z) : app :=
  {| trackId := i; trackName := Some "Dual Cam"; artistName := None;
     formattedPrice := Some "Free"; averageUserRating := r;
     userRatingCount := Some n; version := None;
     currentVersionReleaseDate := None; description := None;
     bundleId := None; fileSizeBytes := None; minimumOsVersion := None;
     genres := None |}.

Definition rated_app : app := plain_app (Some 1) (Some (9 # 2)) 10.
Definition unrated_app : app := plain_app (Some 2) None 3.
Definition zero_app : app := plain_app (Some 0) (Some (4 # 1)) 7.

(** The first query finds [apps], every other request fails. *)
Definition net_finding (apps : list app)
  : string -> outcome search_response :=
  fun term =>
    if String.eqb term "dual camera recording"
    then Response 200 (Some (SearchResponse (Some apps)))
    else Failed.

(** No request is answered. *)
Definition no_net {A B : Type} : A -> outcome B := fun _ => Failed.

(** Two competitors, one rated and one not. *)
Definition mixed_competitors : list competitor :=
  [competitor_of rated_app; competitor_of unrated_app].

(** Three rated competitors, two of them tied on the rating. *)
Definition rated_competitors : list competitor :=
  [competitor_of (plain_app (Some 1) (Some (7 # 2)) 100);
   competitor_of (plain_app (Some 2) (Some (24 # 5)) 50);
   competitor_of (plain_app (Some 3) (Some (24 # 5)) 200)].

(** An app called MixCam, with a long description. *)
Definition mixcam_app : app :=
  {| trackId := Some 1234; trackName := Some "MixCam: Dual Camera";
     artistName := Some "Studio"; formattedPrice := None;
     averageUserRating := Some (23 # 5); userRatingCount := Some 812;
     version := Some "2.1"; currentVersionReleaseDate := None;
     description := Some (repeat_char "d" 600);
     bundleId := Some "com.example.mixcam"; fileSizeBytes := None;
     minimumOsVersion := Some "15.0"; genres := Some ["Photo & Video"] |}.

(** The App Store: the search for the target finds another app and
    MixCam, the first competitor query finds three rated apps, one of
    them twice, and the other queries get no answer. *)
Definition store_net : string -> outcome search_response :=
  fun term =>
    if String.eqb term "mixcam dual camera" then
      Response 200 (Some (SearchResponse (Some [rated_app; mixcam_app])))
    else if String.eqb term "dual camera recording" then
      Response 200
        (Some (SearchResponse
                 (Some [rated_app; mixcam_app; rated_app;
                        plain_app (Some 3) (Some (24 # 5)) 200])))
    else Failed.

(** The discussion search: one query finds a post, the others fail. *)
Definition reddit_net : string -> outcome value :=
  fun query =>
    if String.eqb query "mixcam app review" then
      Response 200
        (Some (VDict [("data",
                       VDict [("children",
                               VList [VDict [("data",
                                              VDict [("title",
                                                      VStr "MixCam?")])]])])]))
    else Failed.

End Samples.

Import Enricher Collector Samples.

(** * [int] on decimal literals *)

Section Int.

Lemma digit_is_plain (c : ascii) :
  is_digit c = true ->
  is_space c = false /\
  forall (A : Type) (minus plus other : A),
    match c with
    | "-"%char => minus
    | "+"%char => plus
    | _ => other
    end = other.
Proof.
  destruct c as [[] [] [] [] [] [] [] []]; vm_compute;
    intros H; try discriminate H; split; reflexivity.
Qed.

Lemma lstrip_digits (l : list ascii) :
  forallb is_digit l = true -> lstrip l = l.
Proof.
  destruct l as [|c l]; [reflexivity|]. cbn [forallb lstrip].
  intros H. apply andb_true_iff in H as [Hc _].
  now rewrite (proj1 (digit_is_plain c Hc)).
Qed.

Lemma forallb_rev_digits (l : list ascii) :
  forallb is_digit (rev l) = forallb is_digit l.
Proof.
  apply eq_true_iff_eq. rewrite !forallb_forall.
  split; intros H x Hx; apply H; [apply in_rev in Hx|apply in_rev]; exact Hx.
Qed.

Lemma strip_digits (l : list ascii) :
  forallb is_digit l = true -> strip l = l.
Proof.
  intros H. unfold strip. rewrite (lstrip_digits l H), lstrip_digits.
  - apply rev_involutive.
  - now rewrite forallb_rev_digits.
Qed.

Lemma parse_digits_digits (l : list ascii) (acc : Z) (n : nat) (prev : bool) :
  forallb is_digit l = true ->
  l <> [] \/ prev = true ->
  exists z, parse_digits acc n prev l = Some (z, (n + List.length l)%nat).
Proof.
  revert acc n prev. induction l as [|c l IH]; intros acc n prev Hd Hne.
  - destruct Hne as [Hne| ->]; [congruence|].
    exists acc. simpl. now rewrite Nat.add_0_r.
  - cbn [forallb] in Hd. apply andb_true_iff in Hd as [Hc Hl].
    cbn [parse_digits]. unfold is_digit in Hc.
    destruct (digit_of c) as [d|]; [|discriminate].
    destruct (IH (10 * acc + d) (S n) true Hl) as [z Hz]; [now right|].
    exists z. rewrite Hz. cbn [List.length]. f_equal. f_equal. lia.
Qed.

(** [int] accepts every decimal literal. *)
Lemma int_accepts_decimal (s : string) :
  decimal s = true -> exists z, py_int (VStr s) = Ok z.
Proof.
  unfold decimal, py_int, int_of_string.
  destruct (list_ascii_of_string s) as [|c l] eqn:Hs; [discriminate|].
  intros H. apply andb_true_iff in H as [Hd Hlen].
  rewrite (strip_digits _ Hd).
  pose proof Hd as Hc. cbn [forallb] in Hc. apply andb_true_iff in Hc as [Hc _].
  rewrite (proj2 (digit_is_plain c Hc)).
  destruct (parse_digits_digits (c :: l) 0 0 false Hd) as [z Hz];
    [left; discriminate|].
  rewrite Hz. cbn [Nat.add]. rewrite Hlen. eauto.
Qed.

(** [int] strips blanks only: a file separator before the digit stays and
    makes the label invalid, as does a letter. *)
Example int_rejects_control_characters :
  py_int (VStr (String (ascii_of_nat 28) "2")) = Raise ValueError /\
  py_int (VStr (String (ascii_of_nat 9) "2 ")) = Ok 2 /\
  well_formed
    (VDict [("im:rating",
             VDict [("label", VStr (String (ascii_of_nat 28) "2"))])])
  = false.
Proof. repeat split. Qed.

End Int.

(** * The review classifier *)

Section Classifier.

Lemma bind_ok {A B : Type} (m : res A) (k : A -> res B) (r : B) :
  bind m k = Ok r -> exists a, m = Ok a /\ k a = Ok r.
Proof. destruct m as [a|e]; simpl; [eauto | discriminate]. Qed.

(** What one iteration does once the three fields are read. *)
Lemma analyze_step_read (b : buckets) (review : value)
  (content title : string) (rating : Z) :
  review_content review = Ok content ->
  review_title review = Ok title ->
  review_rating review = Ok rating ->
  exists raw_title,
    label_of review "title" (VStr "") = Ok raw_title /\
    analyze_step b review = Ok
      {| complaints := complaints b ++
           (if rating <=? 3
            then [complaint_record rating raw_title content] else []);
         features_requested := features_requested b ++
           (if any_keyword feature_keywords (full_text title content)
            then [text_record rating content] else []);
         positive_features := positive_features b ++
           (if (4 <=? rating) &&
               any_keyword positive_keywords (full_text title content)
            then [text_record rating content] else []) |}.
Proof.
  intros Hc Ht Hr.
  assert (exists raw, label_of review "title" (VStr "") = Ok raw) as [raw Hraw].
  { unfold review_title in Ht. apply bind_ok in Ht as (raw & H & _). eauto. }
  exists raw. split; [exact Hraw|].
  unfold analyze_step. rewrite Hc, Ht, Hr, Hraw. cbn [bind].
  destruct (rating <=? 3), (4 <=? rating),
    (any_keyword feature_keywords (full_text title content)),
    (any_keyword positive_keywords (full_text title content));
    cbn [bind andb]; rewrite ?app_nil_r; reflexivity.
Qed.

(** An iteration that returns has read the three fields. *)
Lemma analyze_step_returns (b b' : buckets) (review : value) :
  analyze_step b review = Ok b' ->
  exists content title rating,
    review_content review = Ok content /\
    review_title review = Ok title /\
    review_rating review = Ok rating.
Proof.
  unfold analyze_step. intros H.
  apply bind_ok in H as (content & Hc & H).
  apply bind_ok in H as (title & Ht & H).
  apply bind_ok in H as (rating & Hr & H).
  eauto 7.
Qed.









(** *** Which records the classifier reads *)

Lemma read_field_ok {A : Type} (review : value) (field : string)
  (default : value) (f : value -> res A) (accept : value -> bool) :
  (forall label, is_ok (f label) = accept label) ->
  accept default = true ->
  is_ok (bind (label_of review field default) f)
  = field_ok review field accept.
Proof.
  intros Hf Hd. unfold label_of, field_ok.
  destruct review as [| | | | | |d]; try reflexivity. simpl.
  destruct (assoc field d) as [[| | | | | |entry]|]; simpl; try reflexivity.
  - destruct (assoc "label" entry); simpl; rewrite Hf; auto.
  - rewrite Hf. exact Hd.
Qed.

Lemma review_content_ok (review : value) :
  is_ok (review_content review) = field_ok review "content" is_str.
Proof.
  apply read_field_ok; [|reflexivity]. intros []; reflexivity.
Qed.

Lemma review_title_ok (review : value) :
  is_ok (review_title review) = field_ok review "title" is_str.
Proof.
  apply read_field_ok; [|reflexivity]. intros []; reflexivity.
Qed.

Lemma review_rating_ok (review : value) :
  is_ok (review_rating review) = field_ok review "im:rating" is_int_literal.
Proof. apply read_field_ok; reflexivity. Qed.

Lemma is_ok_true {A : Type} (m : res A) :
  is_ok m = true <-> exists a, m = Ok a.
Proof.
  destruct m; simpl; split; eauto; try discriminate.
  intros [a H]. discriminate.
Qed.

(** The iteration returns exactly on the well-formed records. *)
Lemma analyze_step_ok (b : buckets) (review : value) :
  is_ok (analyze_step b review) = well_formed review.
Proof.
  unfold well_formed.
  rewrite <- review_content_ok, <- review_title_ok, <- review_rating_ok.
  destruct (analyze_step b review) as [b'|e] eqn:Hstep.
  - apply analyze_step_returns in Hstep
      as (content & title & rating & -> & -> & ->). reflexivity.
  - destruct (review_content review) as [content|] eqn:Hc; [|reflexivity].
    destruct (review_title review) as [title|] eqn:Ht; [|reflexivity].
    destruct (review_rating review) as [rating|] eqn:Hr; [|reflexivity].
    destruct (analyze_step_read b review content title rating Hc Ht Hr)
      as (raw & _ & H). congruence.
Qed.

Lemma analyze_loop_ok (reviews : list value) (b : buckets) :
  is_ok (analyze_loop b reviews) = forallb well_formed reviews.
Proof.
  revert b. induction reviews as [|review rest IH]; intros b; simpl.
  - reflexivity.
  - rewrite <- (analyze_step_ok b review).
    destruct (analyze_step b review) as [b'|e]; simpl; [apply IH | reflexivity].
Qed.

Lemma analyze_reviews_ok (reviews : list value) :
  is_ok (analyze_reviews reviews) = forallb well_formed reviews.
Proof.
  unfold analyze_reviews. rewrite <- (analyze_loop_ok reviews no_buckets).
  destruct (analyze_loop no_buckets reviews); reflexivity.
Qed.

(** C2, as amended.  The classifier returns, without raising, on every
    list of well-formed review records: dicts in which each of title,
    content and rating is missing, or is an object whose label is missing
    or is a str (for the rating: a value [int] accepts).  A missing title
    or content reads as the empty text and a missing rating as 0.  On a
    list that holds a record that is not well-formed (a record that is no
    dict, a field that is no object, a title or content label that is no
    str, a rating label [int] rejects) the classifier raises. *)
Theorem analyze_reviews_total_on_well_formed (reviews : list value) :
  (forallb well_formed reviews = true ->
   exists complaints feature_requests positive,
     analyze_reviews reviews = Ok (complaints, feature_requests, positive)) /\
  (forallb well_formed reviews = false ->
   exists e, analyze_reviews reviews = Raise e) /\
  (forall d,
     (assoc "content" d = None -> review_content (VDict d) = Ok "") /\
     (assoc "title" d = None -> review_title (VDict d) = Ok "") /\
     (assoc "im:rating" d = None -> review_rating (VDict d) = Ok 0)).
Proof.
  split; [|split].
  - intros Hwf. rewrite <- analyze_reviews_ok in Hwf. apply is_ok_true in Hwf.
    destruct Hwf as [[[cs fs] ps] H]. eauto.
  - rewrite <- analyze_reviews_ok.
    destruct (analyze_reviews reviews) as [r|e]; [discriminate | eauto].
  - intros d. unfold review_content, review_title, review_rating, label_of.
    simpl. repeat split; intros ->; reflexivity.
Qed.

Lemma analyze_reviews_total_on_well_formed_witness :
  (exists complaints feature_requests positive,
     analyze_reviews [bare_review; low_review; high_review]
     = Ok (complaints, feature_requests, positive)) /\
  (exists e, analyze_reviews [low_review; worded_review] = Raise e) /\
  review_rating (VDict [("title", entry (VStr "ok"))]) = Ok 0.
Proof.
  split; [|split].
  - exact (proj1 (analyze_reviews_total_on_well_formed
                    [bare_review; low_review; high_review]) eq_refl).
  - exact (proj1 (proj2 (analyze_reviews_total_on_well_formed
                           [low_review; worded_review])) eq_refl).
  - exact (proj2 (proj2 (proj2 (proj2
             (analyze_reviews_total_on_well_formed []))
             [("title", entry (VStr "ok"))])) eq_refl).
Defined.

(** C2 as stated fails: a rating label that is not an integer literal
    makes [int] raise, and nothing in [analyze_reviews] catches it. *)
Lemma malformed_rating_raises :
  analyze_reviews [worded_review] = Raise ValueError.
Proof. vm_compute. reflexivity. Qed.

(** A record that is not well-formed always stops the classifier. *)
Lemma analyze_reviews_raises_on_malformed (reviews : list value) :
  forallb well_formed reviews = false ->
  exists e, analyze_reviews reviews = Raise e.
Proof.
  rewrite <- analyze_reviews_ok.
  destruct (analyze_reviews reviews) as [r|e]; [discriminate | eauto].
Qed.

(** *** The stored snippet *)

Lemma length_take_str (n : nat) (s : string) :
  String.length (take_str n s) = Nat.min n (String.length s).
Proof.
  revert s. induction n as [|n IH]; intros [|c s]; simpl; try reflexivity.
  now rewrite IH.
Qed.

Lemma length_lower (s : string) : String.length (lower s) = String.length s.
Proof. induction s as [|c s IH]; simpl; congruence. Qed.

Lemma added_record (l : list value) (c : bool) (x record : value) :
  l ++ (if c then [x] else []) = l ++ [record] -> x = record.
Proof.
  intros H. apply app_inv_head in H. destruct c; congruence.
Qed.

(** C3, as amended.  Every record an iteration adds to a bucket stores,
    under [snippet] (complaints) or [text] (the other two buckets), the
    first 200 characters of the lower-cased content, and for a content of
    500 characters it has exactly 200 characters. *)
Theorem snippet_is_first_200_of_lowered_content (b b' : buckets)
  (review : value) (s : string) :
  label_of review "content" (VStr "") = Ok (VStr s) ->
  analyze_step b review = Ok b' ->
  (forall record, complaints b' = complaints b ++ [record] ->
     getitem record "snippet" = Ok (VStr (take_str 200 (lower s)))) /\
  (forall record, features_requested b' = features_requested b ++ [record] ->
     getitem record "text" = Ok (VStr (take_str 200 (lower s)))) /\
  (forall record, positive_features b' = positive_features b ++ [record] ->
     getitem record "text" = Ok (VStr (take_str 200 (lower s)))) /\
  (String.length s = 500%nat ->
   String.length (take_str 200 (lower s)) = 200%nat).
Proof.
  intros Hlabel Hstep.
  destruct (analyze_step_returns _ _ _ Hstep)
    as (content & title & rating & Hc & Ht & Hr).
  assert (content = lower s) as ->.
  { unfold review_content in Hc. rewrite Hlabel in Hc. simpl in Hc.
    congruence. }
  destruct (analyze_step_read b review _ _ _ Hc Ht Hr) as (raw & _ & H).
  rewrite Hstep in H. injection H as ->. cbn [complaints features_requested
    positive_features].
  repeat split.
  - intros record H. apply added_record in H. now subst record.
  - intros record H. apply added_record in H. now subst record.
  - intros record H. apply added_record in H. now subst record.
  - intros Hlen. rewrite length_take_str, length_lower, Hlen. reflexivity.
Qed.

Lemma snippet_is_first_200_of_lowered_content_witness :
  exists b',
    analyze_step no_buckets shouting_review = Ok b' /\
    (forall record, complaints b' = complaints no_buckets ++ [record] ->
       getitem record "snippet"
       = Ok (VStr (take_str 200 (lower (repeat_char "A" 500))))) /\
    String.length (take_str 200 (lower (repeat_char "A" 500))) = 200%nat.
Proof.
  eexists. split; [vm_compute; reflexivity|].
  pose proof (snippet_is_first_200_of_lowered_content no_buckets _
                shouting_review (repeat_char "A" 500) eq_refl eq_refl)
    as (Hc & _ & _ & Hlen).
  split; [exact Hc | apply Hlen; reflexivity].
Defined.

(** C3 as stated fails: the snippet of a content of 500 capital letters is
    200 small letters, not the first 200 characters of the content. *)
Lemma snippet_is_lower_cased :
  String.length (repeat_char "A" 500) = 500%nat /\
  analyze_reviews [shouting_review]
  = Ok ([VDict [("rating", VInt 1); ("title", VStr "");
                ("snippet", VStr (repeat_char "a" 200))]], [], []) /\
  repeat_char "a" 200 <> take_str 200 (repeat_char "A" 500).
Proof.
  split; [vm_compute; reflexivity|].
  split; [vm_compute; reflexivity|].
  vm_compute. discriminate.
Qed.

(** Every record of the three buckets stores at most 200 characters. *)
Lemma capped_if (c : bool) (x : value) :
  capped x = true -> forallb capped (if c then [x] else []) = true.
Proof. intros H. destruct c; simpl; [now rewrite H | reflexivity]. Qed.

Lemma take_str_capped (s : string) :
  (String.length (take_str 200 s) <=? 200)%nat = true.
Proof. apply Nat.leb_le. rewrite length_take_str. apply Nat.le_min_l. Qed.

Lemma analyze_loop_capped (reviews : list value) (b b' : buckets) :
  analyze_loop b reviews = Ok b' ->
  forallb capped (complaints b) = true ->
  forallb capped (features_requested b) = true ->
  forallb capped (positive_features b) = true ->
  forallb capped (complaints b') = true /\
  forallb capped (features_requested b') = true /\
  forallb capped (positive_features b') = true.
Proof.
  revert b. induction reviews as [|review rest IH]; intros b Hloop Hc Hf Hp.
  - injection Hloop as <-. auto.
  - cbn [analyze_loop] in Hloop.
    apply bind_ok in Hloop as (b1 & Hstep & Hloop).
    destruct (analyze_step_returns _ _ _ Hstep)
      as (content & title & rating & H1 & H2 & H3).
    destruct (analyze_step_read b review _ _ _ H1 H2 H3) as (raw & _ & H).
    rewrite Hstep in H. injection H as ->.
    apply (IH _ Hloop); cbn [complaints features_requested positive_features];
      rewrite forallb_app; apply andb_true_iff; split; try assumption;
      apply capped_if; unfold capped; cbn; apply take_str_capped.
Qed.

Lemma every_stored_text_is_capped (reviews cs fs ps : list value) :
  analyze_reviews reviews = Ok (cs, fs, ps) ->
  forallb capped cs = true /\ forallb capped fs = true /\
  forallb capped ps = true.
Proof.
  unfold analyze_reviews. intros H. apply bind_ok in H as (b & Hloop & H).
  injection H as <- <- <-.
  apply (analyze_loop_capped reviews no_buckets b Hloop); reflexivity.
Qed.

(** The search text joins title and content with one space: a keyword is
    not found across the two without it, and "would like" is found across
    them with it. *)
Example search_text_separator :
  full_text "wis" "h" = "wis h" /\
  any_keyword feature_keywords (full_text "wis" "h") = false /\
  any_keyword feature_keywords (full_text "i would" "like more") = true.
Proof. repeat split. Qed.

End Classifier.

(** * The competitor ranking *)

Section Ranking.

Local Abbreviation key x := (sort_key x).

(** Ascending order of a list, as [list.sort] leaves it. *)
Local Abbreviation ascending :=
  (StronglySorted (fun x y => key_ltb (key y) (key x) = false)).

Lemma key_ltb_spec (a b : rating_value * Z) :
  key_ltb a b = true <->
  (rating_or_0 (fst a) < rating_or_0 (fst b))%Q \/
  ((rating_or_0 (fst a) == rating_or_0 (fst b))%Q /\ snd a < snd b).
Proof.
  unfold key_ltb.
  destruct (Qeq_bool (rating_or_0 (fst a)) (rating_or_0 (fst b))) eqn:E.
  - apply Qeq_bool_iff in E. rewrite Z.ltb_lt. split.
    + intros H. right. split; assumption.
    + intros [H|[_ H]]; [|exact H]. rewrite E in H.
      exfalso. exact (Qlt_irrefl _ H).
  - apply Qeq_bool_neq in E. rewrite negb_true_iff.
    rewrite <- not_true_iff_false, Qle_bool_iff. split.
    + intros H. left. apply Qnot_le_lt. exact H.
    + intros [H|[H _]]; [|contradiction]. apply Qlt_not_le. exact H.
Qed.

Lemma key_ltb_false (a b : rating_value * Z) :
  key_ltb a b = false <->
  (rating_or_0 (fst b) < rating_or_0 (fst a))%Q \/
  ((rating_or_0 (fst a) == rating_or_0 (fst b))%Q /\ snd b <= snd a).
Proof.
  rewrite <- not_true_iff_false, key_ltb_spec.
  destruct (Q_dec (rating_or_0 (fst a)) (rating_or_0 (fst b)))
    as [[Hlt|Hgt]|Heq].
  - split.
    + intros H. exfalso. apply H. left. exact Hlt.
    + intros [H|[H _]] _.
      * exact (Qlt_irrefl _ (Qlt_trans _ _ _ Hlt H)).
      * rewrite H in Hlt. exact (Qlt_irrefl _ Hlt).
  - split; [intros _; left; exact Hgt|].
    intros _ [H|[H _]].
    + exact (Qlt_irrefl _ (Qlt_trans _ _ _ Hgt H)).
    + rewrite H in Hgt. exact (Qlt_irrefl _ Hgt).
  - split.
    + intros H. right. split; [exact Heq|].
      destruct (Z_lt_le_dec (snd a) (snd b)) as [Hz|Hz]; [|exact Hz].
      exfalso. apply H. right. split; assumption.
    + intros [H|[_ H]] [H'|[_ H']].
      * rewrite Heq in H. exact (Qlt_irrefl _ H).
      * rewrite Heq in H. exact (Qlt_irrefl _ H).
      * rewrite Heq in H'. exact (Qlt_irrefl _ H').
      * lia.
Qed.

Lemma key_ltb_trans (a b c : rating_value * Z) :
  key_ltb a b = true -> key_ltb b c = true -> key_ltb a c = true.
Proof.
  rewrite !key_ltb_spec. intros [H1|[H1 H1']] [H2|[H2 H2']].
  - left. exact (Qlt_trans _ _ _ H1 H2).
  - left. rewrite <- H2. exact H1.
  - left. rewrite H1. exact H2.
  - right. split; [rewrite H1; exact H2 | lia].
Qed.

Lemma key_ltb_asym (a b : rating_value * Z) :
  key_ltb a b = true -> key_ltb b a = false.
Proof.
  rewrite key_ltb_spec, key_ltb_false. intros [H|[H H']].
  - left. exact H.
  - right. split; [symmetry; exact H | lia].
Qed.

Lemma key_ltb_neg_trans (a b c : rating_value * Z) :
  key_ltb a b = true -> key_ltb c b = false -> key_ltb a c = true.
Proof.
  rewrite !key_ltb_spec, key_ltb_false. intros [H1|[H1 H1']] [H2|[H2 H2']].
  - left. exact (Qlt_trans _ _ _ H1 H2).
  - left. rewrite H2. exact H1.
  - left. rewrite H1. exact H2.
  - right. split; [rewrite H1; symmetry; exact H2 | lia].
Qed.

Lemma key_eqb_tie (a b k : rating_value * Z) :
  key_eqb a k = true -> key_eqb b k = true -> key_ltb a b = false.
Proof.
  unfold key_eqb. rewrite !andb_true_iff, !Z.eqb_eq, !Qeq_bool_iff.
  intros [Ha Ha'] [Hb Hb']. apply key_ltb_false. right.
  split; [rewrite Ha, Hb; reflexivity | lia].
Qed.

(** The comparison of the code on records of one kind, and across kinds. *)
Lemma key_lt_same_kind (x y : competitor) :
  rated x = rated y ->
  key_lt (key x) (key y) = Ok (key_ltb (key x) (key y)).
Proof.
  unfold rated, key_lt, key_ltb, sort_key. simpl.
  destruct (rating x) as [p|], (rating y) as [q|]; simpl;
    try discriminate; intros _.
  - destruct (Qeq_bool p q); reflexivity.
  - reflexivity.
Qed.

Lemma key_lt_other_kind (x y : competitor) :
  rated x <> rated y -> key_lt (key x) (key y) = Raise TypeError.
Proof.
  unfold rated, key_lt, sort_key. simpl.
  destruct (rating x), (rating y); simpl; congruence.
Qed.

(** *** Insertion *)

Lemma filter_above_tie (f : competitor -> bool)
  (Htie : forall y z, f y = true -> f z = true ->
                      key_ltb (key y) (key z) = false)
  (x : competitor) (l : list competitor) :
  f x = true ->
  Forall (fun z => key_ltb (key x) (key z) = true) l ->
  List.filter f l = [].
Proof.
  intros Hfx Hless. induction Hless as [|z t Hz Ht IHt]; [reflexivity|].
  cbn [List.filter]. destruct (f z) eqn:Hfz; [|exact IHt].
  rewrite (Htie x z Hfx Hfz) in Hz. discriminate.
Qed.

Lemma insert_same_kind (x : competitor) (l : list competitor) :
  Forall (fun y => rated y = rated x) l ->
  ascending l ->
  exists r,
    insert x l = Ok r /\
    Permutation (x :: l) r /\
    ascending r /\
    forall f : competitor -> bool,
      (forall y z, f y = true -> f z = true ->
                   key_ltb (key y) (key z) = false) ->
      List.filter f r = List.filter f l ++ (if f x then [x] else []).
Proof.
  induction l as [|y l IH]; intros Hkind Hsorted.
  - exists [x]. repeat split.
    + reflexivity.
    + repeat constructor.
  - inversion Hkind as [|? ? Hy Hl]; subst.
    inversion Hsorted as [|? ? Hs Hall]; subst.
    cbn [insert]. rewrite key_lt_same_kind by (symmetry; exact Hy).
    cbn [bind].
    destruct (key_ltb (key x) (key y)) eqn:Hxy.
    + exists (x :: y :: l). split; [reflexivity|].
      assert (Forall (fun z => key_ltb (key x) (key z) = true) (y :: l))
        as Hless.
      { constructor; [exact Hxy|].
        eapply List.Forall_impl; [|exact Hall]. cbn beta.
        intros z Hz. exact (key_ltb_neg_trans _ _ _ Hxy Hz). }
      split; [reflexivity|]. split.
      * constructor; [exact Hsorted|].
        eapply List.Forall_impl; [|exact Hless]. cbn beta.
        intros z Hz. exact (key_ltb_asym _ _ Hz).
      * intros f Htie.
        change (List.filter f (x :: y :: l))
          with (if f x then x :: List.filter f (y :: l)
                else List.filter f (y :: l)).
        destruct (f x) eqn:Hfx; [|now rewrite app_nil_r].
        now rewrite (filter_above_tie f Htie x (y :: l) Hfx Hless).
    + destruct (IH Hl Hs) as (r & -> & Hperm & Hr & Hfilter).
      exists (y :: r). cbn [bind]. split; [reflexivity|]. split.
      * rewrite perm_swap. constructor. exact Hperm.
      * split.
        -- constructor; [exact Hr|].
           eapply Permutation_Forall; [exact Hperm|].
           constructor; [exact Hxy | exact Hall].
        -- intros f Htie. cbn [List.filter]. rewrite (Hfilter f Htie).
           destruct (f y); reflexivity.
Qed.

Lemma insert_other_kind (x y : competitor) (l : list competitor) :
  rated x <> rated y -> insert x (y :: l) = Raise TypeError.
Proof.
  intros H. cbn [insert]. rewrite key_lt_other_kind by exact H. reflexivity.
Qed.

(** *** The sort loop *)

Lemma sort_loop_same_kind (k : bool) (rest sorted : list competitor) :
  Forall (fun y => rated y = k) sorted ->
  Forall (fun y => rated y = k) rest ->
  ascending sorted ->
  exists r,
    sort_loop sorted rest = Ok r /\
    Permutation (sorted ++ rest) r /\
    ascending r /\
    forall f : competitor -> bool,
      (forall y z, f y = true -> f z = true ->
                   key_ltb (key y) (key z) = false) ->
      List.filter f r = List.filter f sorted ++ List.filter f rest.
Proof.
  revert sorted. induction rest as [|x rest IH]; intros sorted Hs Hr Hasc.
  - exists sorted. rewrite !app_nil_r. repeat split; try assumption.
    + reflexivity.
    + intros f _. cbn [List.filter]. now rewrite app_nil_r.
  - inversion Hr as [|? ? Hx Hrest]; subst.
    destruct (insert_same_kind x sorted) as (s' & Hins & Hperm & Hasc' & Hf).
    { eapply List.Forall_impl; [|exact Hs]. cbn beta. congruence. }
    { exact Hasc. }
    destruct (IH s') as (r & Hloop & Hperm' & Hasc'' & Hf').
    { eapply Permutation_Forall; [exact Hperm|]. now constructor. }
    { exact Hrest. }
    { exact Hasc'. }
    exists r. cbn [sort_loop]. rewrite Hins. cbn [bind].
    split; [exact Hloop|]. split; [|split; [exact Hasc''|]].
    + rewrite <- Hperm', <- Hperm. symmetry. apply Permutation_middle.
    + intros f Htie. rewrite (Hf' f Htie), (Hf f Htie), <- app_assoc.
      cbn [List.filter]. destruct (f x); reflexivity.
Qed.

Lemma sort_loop_other_kind (k : bool) (rest sorted : list competitor) :
  sorted <> [] ->
  Forall (fun y => rated y = k) sorted ->
  ascending sorted ->
  forallb (fun y => Bool.eqb (rated y) k) rest = false ->
  sort_loop sorted rest = Raise TypeError.
Proof.
  revert sorted.
  induction rest as [|x rest IH]; intros sorted Hne Hs Hasc Hmix.
  - discriminate.
  - cbn [forallb] in Hmix. cbn [sort_loop].
    destruct (Bool.eqb (rated x) k) eqn:Hx.
    + apply Bool.eqb_prop in Hx.
      destruct (insert_same_kind x sorted) as (s' & -> & Hperm & Hasc' & _).
      { eapply List.Forall_impl; [|exact Hs]. cbn beta. congruence. }
      { exact Hasc. }
      cbn [bind]. apply IH.
      * intros ->. apply Permutation_sym, Permutation_nil in Hperm.
        discriminate.
      * eapply Permutation_Forall; [exact Hperm|]. now constructor.
      * exact Hasc'.
      * exact Hmix.
    + destruct sorted as [|y sorted]; [congruence|].
      inversion Hs as [|? ? Hy _]; subst.
      rewrite insert_other_kind; [reflexivity|].
      intros H. rewrite H, Bool.eqb_reflx in Hx. discriminate.
Qed.

(** *** [sorted(..., reverse=True)] and the ranking *)

Lemma strongly_sorted_snoc {A : Type} (R : A -> A -> Prop)
  (l : list A) (a : A) :
  StronglySorted R l -> Forall (fun x => R x a) l ->
  StronglySorted R (l ++ [a]).
Proof.
  induction 1 as [|x l Hl IH Hx]; intros Ha; simpl.
  - repeat constructor.
  - inversion Ha; subst. constructor; [now apply IH|].
    apply Forall_app. split; [exact Hx | now repeat constructor].
Qed.

Lemma strongly_sorted_rev {A : Type} (R : A -> A -> Prop) (l : list A) :
  StronglySorted R l -> StronglySorted (fun x y => R y x) (rev l).
Proof.
  induction 1 as [|x l Hl IH Hx]; simpl.
  - constructor.
  - apply strongly_sorted_snoc; [exact IH|]. apply List.Forall_rev. exact Hx.
Qed.

Lemma forallb_rev {A : Type} (f : A -> bool) (l : list A) :
  forallb f (rev l) = forallb f l.
Proof.
  apply eq_true_iff_eq. rewrite !forallb_forall.
  split; intros H x Hx; apply H; [apply in_rev in Hx|apply in_rev]; exact Hx.
Qed.

Lemma one_kind_rev (l : list competitor) : one_kind (rev l) = one_kind l.
Proof. unfold one_kind. now rewrite !forallb_rev. Qed.

Lemma one_kind_true (l : list competitor) :
  one_kind l = true -> exists k, Forall (fun y => rated y = k) l.
Proof.
  unfold one_kind. rewrite orb_true_iff, !forallb_forall.
  intros [H|H]; [exists true | exists false];
    apply List.Forall_forall; intros x Hx; specialize (H x Hx);
    [exact H | now apply negb_true_iff].
Qed.

Lemma forallb_kind (k : bool) (l : list competitor) :
  forallb (fun y => Bool.eqb (rated y) k) l
  = if k then forallb rated l else forallb (fun y => negb (rated y)) l.
Proof.
  induction l as [|x l IH]; simpl; [now destruct k|].
  rewrite IH. destruct k, (rated x); reflexivity.
Qed.

(** On records of one kind the code sorts: the result is the stable
    descending sort. *)
Lemma sorted_reverse_one_kind (l : list competitor) :
  one_kind l = true ->
  exists s, sorted_reverse l = Ok s /\ stable_descending_sort l s.
Proof.
  intros Hkind. rewrite <- one_kind_rev in Hkind.
  apply one_kind_true in Hkind as [k Hk].
  destruct (sort_loop_same_kind k (rev l) []) as (r & Hr & Hperm & Hasc & Hf).
  { constructor. }
  { exact Hk. }
  { constructor. }
  exists (rev r). unfold sorted_reverse. rewrite Hr. cbn [bind].
  split; [reflexivity|]. split; [|split].
  - rewrite <- Permutation_rev, <- Hperm. cbn [List.app]. apply Permutation_rev.
  - apply (strongly_sorted_rev _ r Hasc).
  - intros key0. rewrite List.filter_rev, Hf.
    + cbn [List.filter List.app]. now rewrite List.filter_rev, rev_involutive.
    + intros y z Hy Hz. exact (key_eqb_tie _ _ _ Hy Hz).
Qed.

(** On a mix of rated and unrated records the code raises. *)
Lemma sorted_reverse_mix (l : list competitor) :
  one_kind l = false -> sorted_reverse l = Raise TypeError.
Proof.
  intros Hmix. rewrite <- one_kind_rev in Hmix. unfold sorted_reverse.
  destruct (rev l) as [|x rest]; [discriminate|].
  cbn [sort_loop insert bind].
  rewrite (sort_loop_other_kind (rated x) rest [x]); try reflexivity.
  - discriminate.
  - now repeat constructor.
  - repeat constructor.
  - rewrite forallb_kind. unfold one_kind in Hmix. cbn [forallb] in Hmix.
    destruct (rated x); simpl in Hmix.
    + now apply orb_false_elim in Hmix.
    + exact Hmix.
Qed.

Lemma rank_defined_iff_one_kind (l : list competitor) :
  is_ok (rank l) = one_kind l.
Proof.
  unfold rank. destruct (one_kind l) eqn:Hkind.
  - destruct (sorted_reverse_one_kind l Hkind) as (s & -> & _). reflexivity.
  - now rewrite (sorted_reverse_mix l Hkind).
Qed.

(** The ranking of the code on records of one kind: the first 10 of the
    stable descending sort by (rating, rating_count). *)
Lemma rank_is_stable_descending_top_10 (l : list competitor) :
  one_kind l = true ->
  exists s, stable_descending_sort l s /\ rank l = Ok (take 10 s).
Proof.
  intros Hkind. destruct (sorted_reverse_one_kind l Hkind) as (s & Hs & Hsort).
  exists s. split; [exact Hsort|]. unfold rank. now rewrite Hs.
Qed.

(** The ranking keeps at most 10 records: all of them up to 10, and 10
    of 15. *)
Lemma rank_length (l : list competitor) :
  one_kind l = true ->
  exists r, rank l = Ok r /\
            List.length r = Nat.min 10 (List.length l).
Proof.
  intros Hkind.
  destruct (rank_is_stable_descending_top_10 l Hkind) as (s & (Hperm & _) & Hr).
  exists (take 10 s). split; [exact Hr|].
  rewrite length_take. now rewrite (Permutation_length Hperm).
Qed.

(** The ranking example of the specification: ratings 3.5, 4.8, 4.8 with
    counts 100, 50, 200 come out as third, second, first. *)
Example rank_rated_competitors :
  rank rated_competitors
  = Ok [competitor_of (plain_app (Some 3) (Some (24 # 5)) 200);
        competitor_of (plain_app (Some 2) (Some (24 # 5)) 50);
        competitor_of (plain_app (Some 1) (Some (7 # 2)) 100)].
Proof. vm_compute. reflexivity. Qed.

(** C1.  The record built for an app without [averageUserRating] holds
    the str ['N/A'] under [rating], so the default 0 of the sort key never
    applies; with one rated and one unrated app found, the comparison of
    the two keys raises [TypeError] and the competitor stage ends with
    it. *)
Theorem unrated_app_breaks_ranking :
  rating (competitor_of unrated_app) = NotAvailable /\
  key_lt (sort_key (competitor_of rated_app))
         (sort_key (competitor_of unrated_app)) = Raise TypeError /\
  fst (Collector.main (net_finding [rated_app; unrated_app]) no_net [])
  = Raise TypeError.
Proof. repeat split; vm_compute; reflexivity. Qed.

(** C4.  For one rated and one unrated competitor the stable descending
    sort of the specification exists (the rated record first, the absent
    rating counting as 0), but the ranking of the code raises
    [TypeError]; it does so on every list that mixes the two kinds. *)
Theorem ranking_raises_on_mixed_ratings :
  stable_descending_sort mixed_competitors mixed_competitors /\
  rank mixed_competitors = Raise TypeError /\
  (forall l, one_kind l = false -> rank l = Raise TypeError).
Proof.
  split; [|split].
  - split; [reflexivity|]. split; [|reflexivity].
    repeat constructor.
  - vm_compute. reflexivity.
  - intros l Hmix. unfold rank. now rewrite (sorted_reverse_mix l Hmix).
Qed.

Lemma ranking_raises_on_mixed_ratings_witness :
  rank mixed_competitors = Raise TypeError.
Proof.
  exact (proj2 (proj2 ranking_raises_on_mixed_ratings)
           mixed_competitors eq_refl).
Defined.

End Ranking.

(** * The competitor collection *)

Section Collection.

Lemma fetch_json_spec {B : Type} (prefix : string) (o : outcome B)
  (log : list line) :
  fetch_json prefix o log = (Ok (delivered o), log ++ logged prefix o).
Proof.
  unfold fetch_json. destruct o as [|status [data|]]; simpl.
  - reflexivity.
  - destruct (status =? 200); simpl; now rewrite ?app_nil_r.
  - destruct (status =? 200); simpl; now rewrite ?app_nil_r.
Qed.

Lemma add_results_fold (st : collection) (found : option search_response) :
  add_results st found = fold_left add_app (apps_of found) st.
Proof.
  destruct found as [[[[|a apps]|]]|]; reflexivity.
Qed.

(** The search loop never raises; it folds [add_app] over the raw results
    of the queries. *)
Lemma collect_loop_spec (net : string -> outcome search_response)
  (terms : list string) (st : collection) (log : list line) :
  collect_loop net terms st log
  = (Ok (fold_left add_app (raw_results net terms) st),
     log ++ flat_map (fun term => logged "App Store search error" (net term))
              terms).
Proof.
  revert st log. induction terms as [|term rest IH]; intros st log.
  - simpl. now rewrite app_nil_r.
  - cbn [collect_loop]. unfold search_app_store. rewrite fetch_json_spec.
    rewrite IH, add_results_fold. unfold raw_results. cbn [flat_map].
    now rewrite fold_left_app, <- app_assoc.
Qed.

Lemma fold_add_app (apps : list app) (st : collection) (seen : list Z) :
  (forall i, i ∈ seen_apps st <-> i ∈ seen) ->
  competitors (fold_left add_app apps st)
  = competitors st ++
    map competitor_of (first_occurrences seen (List.filter nonzero_id apps)).
Proof.
  revert st seen. induction apps as [|a apps IH]; intros st seen Hseen.
  - simpl. now rewrite app_nil_r.
  - cbn [fold_left List.filter]. unfold add_app at 2, nonzero_id at 1.
    destruct (trackId a) as [i|] eqn:Hid; [|now apply IH].
    destruct (i =? 0) eqn:Hzero; cbn [negb andb]; [now apply IH|].
    cbn [first_occurrences]. rewrite Hid.
    destruct (decide (i ∈ seen)) as [Hin|Hout].
    + rewrite (bool_decide_eq_true_2 _ Hin).
      rewrite bool_decide_eq_false_2 by (rewrite Hseen; tauto).
      now apply IH.
    + rewrite (bool_decide_eq_false_2 _ Hout).
      rewrite bool_decide_eq_true_2 by (rewrite Hseen; exact Hout).
      rewrite (IH _ (i :: seen)).
      * cbn [competitors map]. now rewrite <- app_assoc.
      * intros j. cbn [seen_apps].
        rewrite elem_of_union, elem_of_singleton, elem_of_cons, Hseen.
        tauto.
Qed.

(** Each identifier is kept once, with the first app that carries it. *)
Lemma first_occurrences_filter (i : Z) (apps : list app) (seen : list Z) :
  List.filter (has_id i) (first_occurrences seen apps)
  = if bool_decide (i ∈ seen) then []
    else match List.find (has_id i) apps with
         | Some a => [a]
         | None => []
         end.
Proof.
  revert seen. induction apps as [|a apps IH]; intros seen.
  - simpl. now destruct (bool_decide (i ∈ seen)).
  - cbn [first_occurrences List.find]. unfold has_id at 2.
    destruct (trackId a) as [j|] eqn:Hid; [|apply IH].
    destruct (decide (j ∈ seen)) as [Hj|Hj].
    + rewrite (bool_decide_eq_true_2 _ Hj), IH.
      destruct (decide (i ∈ seen)) as [Hi|Hi].
      * now rewrite (bool_decide_eq_true_2 _ Hi).
      * rewrite (bool_decide_eq_false_2 _ Hi).
        destruct (Z.eqb_spec i j) as [->|_]; [contradiction | reflexivity].
    + rewrite (bool_decide_eq_false_2 _ Hj). cbn [List.filter].
      unfold has_id at 1. rewrite Hid, IH.
      destruct (Z.eqb_spec i j) as [->|Hne].
      * rewrite (bool_decide_eq_false_2 _ Hj).
        rewrite bool_decide_eq_true_2 by (left; reflexivity). reflexivity.
      * destruct (decide (i ∈ seen)) as [Hi|Hi].
        -- rewrite (bool_decide_eq_true_2 _ Hi).
           rewrite bool_decide_eq_true_2 by (right; exact Hi). reflexivity.
        -- rewrite (bool_decide_eq_false_2 _ Hi).
           rewrite bool_decide_eq_false_2; [reflexivity|].
           rewrite elem_of_cons. tauto.
Qed.

Lemma first_occurrences_ids (apps : list app) (seen : list Z) :
  NoDup (omap trackId (first_occurrences seen apps)) /\
  (forall i, i ∈ omap trackId (first_occurrences seen apps) -> i ∉ seen) /\
  List.length (omap trackId (first_occurrences seen apps))
  = List.length (first_occurrences seen apps).
Proof.
  revert seen. induction apps as [|a apps IH]; intros seen.
  - simpl. repeat split; [constructor|]. intros i Hi. inversion Hi.
  - cbn [first_occurrences].
    destruct (trackId a) as [j|] eqn:Hid; [|apply IH].
    destruct (decide (j ∈ seen)) as [Hj|Hj].
    + rewrite (bool_decide_eq_true_2 _ Hj). apply IH.
    + rewrite (bool_decide_eq_false_2 _ Hj). cbn [omap list_omap].
      rewrite Hid. destruct (IH (j :: seen)) as (Hnd & Hout & Hlen).
      repeat split.
      * constructor; [|exact Hnd].
        intros Hin. apply (Hout j Hin). left.
      * intros i Hi. apply elem_of_cons in Hi as [->|Hi]; [exact Hj|].
        intros Hs. apply (Hout i Hi). right. exact Hs.
      * cbn [List.length]. now rewrite Hlen.
Qed.

(** The search loop computes the first occurrences of the non-zero
    identifiers. *)
Lemma collect_loop_first_occurrences
  (net : string -> outcome search_response) (terms : list string)
  (log : list line) :
  let apps := List.filter nonzero_id (raw_results net terms) in
  let kept := first_occurrences [] apps in
  exists st log',
    collect_loop net terms nothing_collected log = (Ok st, log') /\
    competitors st = map competitor_of kept /\
    NoDup (omap trackId kept) /\
    List.length (omap trackId kept) = List.length kept /\
    forall i, List.filter (has_id i) kept
              = match List.find (has_id i) apps with
                | Some a => [a]
                | None => []
                end.
Proof.
  intros apps kept. rewrite collect_loop_spec. eexists _, _.
  split; [reflexivity|]. split; [|split; [|split]].
  - rewrite (fold_add_app _ _ []); [reflexivity|].
    intros i. cbn [seen_apps nothing_collected].
    rewrite elem_of_nil. split; [|tauto]. apply not_elem_of_empty.
  - apply (first_occurrences_ids apps []).
  - apply (first_occurrences_ids apps []).
  - intros i. unfold kept. rewrite first_occurrences_filter.
    rewrite bool_decide_eq_false_2; [reflexivity|]. apply not_elem_of_nil.
Qed.

(** C5, as amended.  Whatever the queries return, the search loop ends
    without raising, and the collected competitors are the records built
    from the first occurrence of each identifier among the raw results
    whose identifier is not zero (results without an identifier or with
    identifier 0 are skipped): the identifiers of the kept apps are
    pairwise distinct, every kept app has one, and for every identifier
    the kept apps that carry it are exactly the first raw result that
    does. *)
Theorem competitors_are_first_occurrences
  (net : string -> outcome search_response) (terms : list string)
  (log : list line) :
  let apps := List.filter nonzero_id (raw_results net terms) in
  let kept := first_occurrences [] apps in
  exists st log',
    collect_loop net terms nothing_collected log = (Ok st, log') /\
    competitors st = map competitor_of kept /\
    NoDup (omap trackId kept) /\
    List.length (omap trackId kept) = List.length kept /\
    forall i, List.filter (has_id i) kept
              = match List.find (has_id i) apps with
                | Some a => [a]
                | None => []
                end.
Proof. exact (collect_loop_first_occurrences net terms log). Qed.

(** C5 as stated fails: a raw result with the numeric identifier 0 does
    not pass the test [if app_id], so no competitor is collected for it,
    while the first occurrence of identifier 0 is that result. *)
Lemma zero_identifier_is_skipped :
  trackId zero_app = Some 0 /\
  raw_results (net_finding [zero_app]) search_terms = [zero_app] /\
  first_occurrences [] [zero_app] = [zero_app] /\
  exists st log',
    collect_loop (net_finding [zero_app]) search_terms nothing_collected []
    = (Ok st, log') /\
    competitors st = [].
Proof.
  repeat split. rewrite collect_loop_spec. eexists _, _.
  split; reflexivity.
Qed.

(** The de-duplication example of the specification: the same identifier
    found by two queries gives one competitor, built from the first. *)
Example duplicate_across_queries (a b : app)
  (net : string -> outcome search_response) :
  trackId a = Some 7 -> trackId b = Some 7 ->
  raw_results net search_terms = [a; b] ->
  exists st log',
    collect_loop net search_terms nothing_collected [] = (Ok st, log') /\
    competitors st = [competitor_of a].
Proof.
  intros Ha Hb Hraw.
  destruct (collect_loop_first_occurrences net search_terms [])
    as (st & log' & Hrun & Hc & _).
  exists st, log'. split; [exact Hrun|]. rewrite Hc, Hraw.
  cbn [List.filter]. unfold nonzero_id. rewrite Ha, Hb. cbn.
  rewrite Ha, Hb. reflexivity.
Qed.

End Collection.

(** * The fetch functions *)

Section Fetch.

Lemma delivered_failed {B : Type} (o : outcome B) :
  failed o = true -> delivered o = None.
Proof.
  destruct o as [|status [data|]]; simpl; try reflexivity.
  intros H. apply negb_true_iff in H. now rewrite H.
Qed.

Lemma pages_loop_all_failed (net : value -> nat -> outcome value)
  (app_id : value) (pages : list nat) (all_reviews : list value) :
  (forall page, failed (net app_id page) = true) ->
  fst (pages_loop net app_id pages all_reviews) = all_reviews.
Proof.
  intros Hfailed. induction pages as [|page rest IH]; [reflexivity|].
  cbn [pages_loop]. unfold page_step. specialize (Hfailed page).
  destruct (net app_id page) as [|status body]; cbn in *; [reflexivity|].
  apply negb_true_iff in Hfailed. rewrite Hfailed. exact IH.
Qed.

Lemma reddit_loop_all_failed (net : string -> outcome value)
  (queries : list string) (log : list line) :
  (forall query, failed (net query) = true) ->
  exists lines, reddit_loop net queries log = (Ok tt, log ++ lines).
Proof.
  intros Hfailed. revert log.
  induction queries as [|query rest IH]; intros log.
  - exists []. simpl. now rewrite app_nil_r.
  - cbn [reddit_loop]. unfold search_reddit. rewrite fetch_json_spec.
    rewrite (delivered_failed _ (Hfailed query)). cbn [show_posts].
    destruct (IH (log ++ logged "Reddit search error" (net query)))
      as [lines ->].
    eexists. now rewrite <- app_assoc.
Qed.

Lemma raw_results_all_failed (net : string -> outcome search_response)
  (terms : list string) :
  (forall term, failed (net term) = true) -> raw_results net terms = [].
Proof.
  intros Hfailed. unfold raw_results.
  induction terms as [|term rest IH]; [reflexivity|].
  cbn [flat_map]. now rewrite (delivered_failed _ (Hfailed term)), IH.
Qed.

(** C9, as amended.  A failed request, be it a transport error or an
    answer that is not 200, yields no data and never raises out of the
    fetch function, and the caller goes on: [search_app_store],
    [get_app_details] and [search_reddit] return [None], and the search
    loop continues with the next term and an unchanged collection;
    [get_app_reviews] always returns its list, a page that is not 200 adds
    nothing and the next page is requested, a transport error ends the
    page loop with the reviews read so far.  A transport error is logged
    by the [except] clause; an answer that is not 200 is not logged.
    When every request fails, [get_app_reviews] returns the empty list and
    [main] of the collector returns its document, with no target app and
    no competitors. *)
Theorem failed_request_yields_no_data :
  (forall (B : Type) (prefix : string) (o : outcome B) (log : list line),
     failed o = true ->
     fetch_json prefix o log
     = (Ok None,
        log ++ match o with
               | Failed => [(prefix, RequestException)]
               | Response _ _ => []
               end)) /\
  (forall net term rest st log,
     failed (net term) = true ->
     exists lines,
       search_app_store net term log = (Ok None, log ++ lines) /\
       collect_loop net (term :: rest) st log
       = collect_loop net rest st (log ++ lines)) /\
  (forall net app_id max_pages log,
     exists reviews lines,
       get_app_reviews net app_id max_pages log
       = (Ok reviews, log ++ lines)) /\
  (forall net app_id page pages all_reviews status_code body,
     net app_id page = Response status_code body ->
     status_code <> 200 ->
     pages_loop net app_id (page :: pages) all_reviews
     = pages_loop net app_id pages all_reviews) /\
  (forall net app_id page pages all_reviews,
     net app_id page = Failed ->
     pages_loop net app_id (page :: pages) all_reviews
     = (all_reviews, Some RequestException)) /\
  (forall net app_id max_pages log,
     (forall page, failed (net app_id page) = true) ->
     exists lines,
       get_app_reviews net app_id max_pages log = (Ok [], log ++ lines)) /\
  (forall app_store reddit log,
     (forall query, failed (app_store query) = true) ->
     (forall query, failed (reddit query) = true) ->
     exists document log',
       Collector.main app_store reddit log = (Ok document, log') /\
       mixcam document = None /\
       ranked_competitors document = []).
Proof.
  split; [|split; [|split; [|split; [|split; [|split]]]]].
  - intros B prefix o log Hfailed. rewrite fetch_json_spec.
    destruct o as [|status [data|]]; simpl in *; try reflexivity;
      apply negb_true_iff in Hfailed; now rewrite Hfailed.
  - intros net term rest st log Hfailed.
    exists (logged "App Store search error" (net term)).
    cbn [collect_loop]. unfold search_app_store. rewrite fetch_json_spec.
    assert (delivered (net term) = None) as ->; [|split; reflexivity].
    destruct (net term) as [|status [data|]]; simpl in *; try reflexivity.
    apply negb_true_iff in Hfailed. now rewrite Hfailed.
  - intros net app_id max_pages log. unfold get_app_reviews.
    destruct (pages_loop net app_id (seq 1 max_pages) []) as [reviews [e|]].
    + eexists _, _. reflexivity.
    + exists reviews, []. now rewrite app_nil_r.
  - intros net app_id page pages all_reviews status_code body Hnet Hstatus.
    cbn [pages_loop]. unfold page_step. rewrite Hnet. cbn.
    apply Z.eqb_neq in Hstatus. now rewrite Hstatus.
  - intros net app_id page pages all_reviews Hnet.
    cbn [pages_loop]. unfold page_step. now rewrite Hnet.
  - intros net app_id max_pages log Hfailed. unfold get_app_reviews.
    pose proof (pages_loop_all_failed net app_id (seq 1 max_pages) [] Hfailed)
      as Hnone.
    destruct (pages_loop net app_id (seq 1 max_pages) []) as [reviews [e|]];
      cbn [fst] in Hnone; subst reviews.
    + eexists. reflexivity.
    + exists []. now rewrite app_nil_r.
  - intros app_store reddit log Hstore Hreddit. unfold Collector.main.
    unfold search_app_store at 1. rewrite fetch_json_spec.
    rewrite (delivered_failed _ (Hstore "mixcam dual camera")).
    rewrite collect_loop_spec, (raw_results_all_failed _ _ Hstore).
    cbn [fold_left competitors nothing_collected rank sorted_reverse
         sort_loop rev bind take].
    destruct (reddit_loop_all_failed reddit reddit_queries
                ((log ++ logged "App Store search error"
                           (app_store "mixcam dual camera")) ++
                 flat_map (fun term =>
                             logged "App Store search error" (app_store term))
                   search_terms) Hreddit) as [lines ->].
    eexists _, _. repeat split.
Qed.

Lemma failed_request_yields_no_data_witness :
  fetch_json "App Store search error"
    (Response 503 (Some (SearchResponse None))) []
  = (Ok None, []) /\
  fetch_json "App Store search error" (@Failed search_response) []
  = (Ok None, [("App Store search error", RequestException)]).
Proof.
  split.
  - exact (proj1 failed_request_yields_no_data search_response
             "App Store search error"
             (Response 503 (Some (SearchResponse None))) [] eq_refl).
  - exact (proj1 failed_request_yields_no_data search_response
             "App Store search error" Failed [] eq_refl).
Defined.

(** C9 as stated fails: an answer with status 503 is a failed request,
    and [search_app_store] returns [None] for it without printing. *)
Lemma non_200_is_not_logged :
  failed (Response 503 (Some (SearchResponse None))) = true /\
  search_app_store
    (fun _ => Response 503 (Some (SearchResponse None)))
    "dual camera recording" []
  = (Ok None, []).
Proof. split; reflexivity. Qed.

End Fetch.

(** * The enricher *)

Section Enrichment.

Lemma assoc_set_eq (k : string) (v : value) (d : list (string * value)) :
  assoc k (assoc_set k v d) = Some v.
Proof.
  induction d as [|[k' v'] d IH]; simpl.
  - now rewrite String.eqb_refl.
  - destruct (String.eqb k k') eqn:E; simpl; rewrite E; [reflexivity|exact IH].
Qed.

Lemma assoc_set_ne (k k' : string) (v : value) (d : list (string * value)) :
  k <> k' -> assoc k' (assoc_set k v d) = assoc k' d.
Proof.
  intros Hne. induction d as [|[k0 v0] d IH]; simpl.
  - apply String.eqb_neq in Hne. rewrite String.eqb_sym in Hne.
    now rewrite Hne.
  - destruct (String.eqb k k0) eqn:E; simpl.
    + apply String.eqb_eq in E. subst k0.
      apply String.eqb_neq in Hne. rewrite String.eqb_sym in Hne.
      now rewrite Hne.
    + now rewrite IH.
Qed.

Lemma getitem_setitem_eq (x x' : value) (k : string) (v : value) :
  setitem x k v = Ok x' -> getitem x' k = Ok v.
Proof.
  destruct x; simpl; try discriminate. intros [= <-]. simpl.
  now rewrite assoc_set_eq.
Qed.

Lemma getitem_setitem_ne (x x' : value) (k k' : string) (v : value) :
  setitem x k v = Ok x' -> k <> k' -> getitem x' k' = getitem x k'.
Proof.
  destruct x; simpl; try discriminate. intros [= <-] Hne. simpl.
  now rewrite assoc_set_ne.
Qed.

(** What [data[outer][inner] = v] changes and what it leaves. *)
Lemma set_nested_frame (data data' : value) (outer inner : string)
  (v : value) :
  set_nested data outer inner v = Ok data' ->
  (forall k, k <> outer -> getitem data' k = getitem data k) /\
  (forall k, k <> inner ->
     getitem2 data' outer k = getitem2 data outer k) /\
  getitem2 data' outer inner = Ok v.
Proof.
  unfold set_nested. intros H.
  apply bind_ok in H as (target & Htarget & H).
  apply bind_ok in H as (target' & Htarget' & H).
  repeat split.
  - intros k Hk. exact (getitem_setitem_ne _ _ _ _ _ H (not_eq_sym Hk)).
  - intros k Hk. unfold getitem2.
    rewrite (getitem_setitem_eq _ _ _ _ H), Htarget. cbn [bind].
    exact (getitem_setitem_ne _ _ _ _ _ Htarget' (not_eq_sym Hk)).
  - unfold getitem2. rewrite (getitem_setitem_eq _ _ _ _ H). cbn [bind].
    exact (getitem_setitem_eq _ _ _ _ Htarget').
Qed.

Lemma set_nested_elsewhere (data data' : value) (outer inner : string)
  (v : value) (k1 k2 : string) :
  set_nested data outer inner v = Ok data' ->
  k1 <> outer ->
  getitem2 data' k1 k2 = getitem2 data k1 k2.
Proof.
  intros H Hk. unfold getitem2.
  now rewrite (proj1 (set_nested_frame _ _ _ _ _ H) k1 Hk).
Qed.

Lemma enrich_frame (data out : value) (reviews : list value) :
  enrich data reviews = Ok out ->
  (forall k, k <> "mixcam" -> k <> "market_insights" ->
     getitem out k = getitem data k) /\
  (forall k, k <> "review_analysis" ->
     getitem2 out "mixcam" k = getitem2 data "mixcam" k) /\
  (forall k,
     ~ In k ["standard_features"; "innovative_features"; "pricing_models";
             "ui_trends"] ->
     getitem2 out "market_insights" k = getitem2 data "market_insights" k) /\
  getitem2 out "market_insights" "standard_features"
  = Ok identify_standard_features_2025 /\
  getitem2 out "market_insights" "innovative_features"
  = Ok identify_innovative_features_2025 /\
  getitem2 out "market_insights" "pricing_models"
  = Ok research_pricing_models /\
  getitem2 out "market_insights" "ui_trends" = Ok research_ui_trends_2025 /\
  is_ok (getitem2 out "mixcam" "review_analysis") = true.
Proof.
  unfold enrich. intros H.
  apply bind_ok in H as ([[cs fs] ps] & _ & H).
  apply bind_ok in H as (competitors & _ & H).
  apply bind_ok in H as (top & _ & H).
  apply bind_ok in H as (items & _ & H).
  apply bind_ok in H as (u & _ & H).
  apply bind_ok in H as (d1 & H1 & H).
  apply bind_ok in H as (d2 & H2 & H).
  apply bind_ok in H as (d3 & H3 & H).
  apply bind_ok in H as (d4 & H4 & H5).
  destruct (set_nested_frame _ _ _ _ _ H1) as (T1 & I1 & V1).
  destruct (set_nested_frame _ _ _ _ _ H2) as (T2 & I2 & V2).
  destruct (set_nested_frame _ _ _ _ _ H3) as (T3 & I3 & V3).
  destruct (set_nested_frame _ _ _ _ _ H4) as (T4 & I4 & V4).
  destruct (set_nested_frame _ _ _ _ _ H5) as (T5 & I5 & V5).
  assert (forall k, getitem2 out "market_insights" k
                    = getitem2 d4 "market_insights" k) as M5.
  { intros k. apply (set_nested_elsewhere _ _ _ _ _ _ _ H5). discriminate. }
  assert (forall d d' inner v k,
            set_nested d "market_insights" inner v = Ok d' ->
            getitem2 d' "mixcam" k = getitem2 d "mixcam" k) as X.
  { intros d d' inner v k Hd.
    apply (set_nested_elsewhere _ _ _ _ _ _ _ Hd). discriminate. }
  split; [|split; [|split; [|split; [|split; [|split; [|split]]]]]].
  - intros k Hm Hi.
    now rewrite (T5 k Hm), (T4 k Hi), (T3 k Hi), (T2 k Hi), (T1 k Hi).
  - intros k Hk.
    now rewrite (I5 k Hk), (X _ _ _ _ k H4), (X _ _ _ _ k H3),
      (X _ _ _ _ k H2), (X _ _ _ _ k H1).
  - intros k Hk. cbn [In] in Hk.
    rewrite M5, I4, I3, I2, I1 by (intros ->; tauto). reflexivity.
  - rewrite M5, I4, I3, I2 by discriminate. exact V1.
  - rewrite M5, I4, I3 by discriminate. exact V2.
  - rewrite M5, I4 by discriminate. exact V3.
  - rewrite M5. exact V4.
  - now rewrite V5.
Qed.

(** C10.  When [main] of the enricher gets to write its document, the
    document differs from the loaded one only under [mixcam], where
    [review_analysis] is set, and under [market_insights], where the four
    taxonomy keys are set to the four taxonomies: every other top-level
    entry ([research_date], [competitors], ...), every other entry of
    [mixcam] and every other entry of [market_insights]
    ([user_complaints]) reads as in the loaded document. *)
Theorem enricher_writes_only_taxonomies_and_review_analysis
  (net : value -> nat -> outcome value) (data out : value)
  (log log' : list line) :
  Enricher.main net data log = (Ok out, log') ->
  (forall k, k <> "mixcam" -> k <> "market_insights" ->
     getitem out k = getitem data k) /\
  (forall k, k <> "review_analysis" ->
     getitem2 out "mixcam" k = getitem2 data "mixcam" k) /\
  (forall k,
     ~ In k ["standard_features"; "innovative_features"; "pricing_models";
             "ui_trends"] ->
     getitem2 out "market_insights" k = getitem2 data "market_insights" k) /\
  getitem2 out "market_insights" "standard_features"
  = Ok identify_standard_features_2025 /\
  getitem2 out "market_insights" "innovative_features"
  = Ok identify_innovative_features_2025 /\
  getitem2 out "market_insights" "pricing_models"
  = Ok research_pricing_models /\
  getitem2 out "market_insights" "ui_trends" = Ok research_ui_trends_2025 /\
  is_ok (getitem2 out "mixcam" "review_analysis") = true.
Proof.
  unfold Enricher.main. intros H.
  destruct (getitem2 data "mixcam" "app_id") as [mixcam_id|e];
    [|discriminate].
  destruct (get_app_reviews net mixcam_id 5 log) as [[reviews|e] log1];
    [|discriminate].
  injection H as H _. exact (enrich_frame data out reviews H).
Qed.

Lemma enricher_writes_only_taxonomies_and_review_analysis_witness :
  exists out log',
    Enricher.main reviews_net sample_document [] = (Ok out, log') /\
    getitem out "research_date" = Ok (VStr "October 24, 2025") /\
    getitem out "competitors" = getitem sample_document "competitors" /\
    getitem2 out "mixcam" "app_id" = Ok (VInt 1234) /\
    getitem2 out "market_insights" "user_complaints" = Ok (VList []).
Proof.
  eexists _, _. split; [vm_compute; reflexivity|].
  destruct (enricher_writes_only_taxonomies_and_review_analysis
              reviews_net sample_document _ [] _ eq_refl)
    as (Htop & Hmixcam & Hinsights & _).
  split; [|split; [|split]].
  - rewrite Htop by discriminate. reflexivity.
  - apply Htop; discriminate.
  - rewrite Hmixcam by discriminate. reflexivity.
  - rewrite Hinsights; [reflexivity|]. cbn [In].
    intros [H|[H|[H|[H|[]]]]]; discriminate.
Defined.

(** *** The enricher returns on a document of the collector *)

Lemma set_nested_returns (data : value) (outer inner : string) (v : value)
  (t : list (string * value)) :
  getitem data outer = Ok (VDict t) ->
  exists data',
    set_nested data outer inner v = Ok data' /\
    getitem data' outer = Ok (VDict (assoc_set inner v t)) /\
    forall k, k <> outer -> getitem data' k = getitem data k.
Proof.
  intros H. unfold set_nested. rewrite H. cbn [bind setitem].
  destruct data as [| | | | | |d]; try discriminate. cbn [setitem].
  eexists. split; [reflexivity|]. split.
  - simpl. now rewrite assoc_set_eq.
  - intros k Hk. simpl. rewrite assoc_set_ne; [reflexivity|].
    intros ->. now apply Hk.
Qed.

Lemma competitor_loop_returns (items : list value) :
  Forall (fun c => exists n, getitem c "name" = Ok (VStr n)) items ->
  competitor_loop items = Ok tt.
Proof.
  induction 1 as [|c items [n Hn] _ IH]; [reflexivity|].
  cbn [competitor_loop]. unfold competitor_test. rewrite Hn. cbn [bind str_in].
  destruct (contains "Dual" n); [exact IH|].
  cbn [bind]. destruct (contains "2Cam" n); exact IH.
Qed.

(** With well-formed reviews, a list of competitors whose first five
    carry a str name, and dicts under [mixcam] and [market_insights], the
    enricher writes a document. *)
Lemma enrich_returns (data : value) (reviews competitors : list value)
  (mixcam insights : list (string * value)) :
  forallb well_formed reviews = true ->
  getitem data "competitors" = Ok (VList competitors) ->
  Forall (fun c => exists n, getitem c "name" = Ok (VStr n))
    (take 5 competitors) ->
  getitem data "market_insights" = Ok (VDict insights) ->
  getitem data "mixcam" = Ok (VDict mixcam) ->
  exists out, enrich data reviews = Ok out.
Proof.
  intros Hwf Hc Hnames Hi Hm. unfold enrich.
  rewrite <- analyze_reviews_ok in Hwf. apply is_ok_true in Hwf.
  destruct Hwf as [[[cs fs] ps] ->]. cbn [bind]. rewrite Hc.
  cbn [bind slice_to iterate]. rewrite (competitor_loop_returns _ Hnames).
  cbn [bind].
  destruct (set_nested_returns data "market_insights" "standard_features"
              identify_standard_features_2025 _ Hi) as (d1 & -> & Hi1 & T1).
  cbn [bind].
  destruct (set_nested_returns d1 "market_insights" "innovative_features"
              identify_innovative_features_2025 _ Hi1) as (d2 & -> & Hi2 & T2).
  cbn [bind].
  destruct (set_nested_returns d2 "market_insights" "pricing_models"
              research_pricing_models _ Hi2) as (d3 & -> & Hi3 & T3).
  cbn [bind].
  destruct (set_nested_returns d3 "market_insights" "ui_trends"
              research_ui_trends_2025 _ Hi3) as (d4 & -> & Hi4 & T4).
  cbn [bind].
  assert (getitem d4 "mixcam" = Ok (VDict mixcam)) as Hm4.
  { rewrite T4, T3, T2, T1 by discriminate. exact Hm. }
  destruct (set_nested_returns d4 "mixcam" "review_analysis"
              (VDict [("total_reviews_analyzed",
                       VInt (Z.of_nat (List.length reviews)));
                      ("complaints", VList (take 10 cs));
                      ("feature_requests", VList (take 10 fs));
                      ("positive_mentions", VList (take 10 ps))]) _ Hm4)
    as (out & -> & _). eauto.
Qed.

(** [main] writes a document when the loaded one has an [app_id] under
    [mixcam], the reviews fetched are well-formed, and the rest is as in
    [enrich_returns]. *)
Lemma main_returns (net : value -> nat -> outcome value) (data app_id : value)
  (competitors : list value) (mixcam insights : list (string * value))
  (log : list line) :
  getitem data "mixcam" = Ok (VDict mixcam) ->
  getitem (VDict mixcam) "app_id" = Ok app_id ->
  forallb well_formed (fst (pages_loop net app_id (seq 1 5) [])) = true ->
  getitem data "competitors" = Ok (VList competitors) ->
  Forall (fun c => exists n, getitem c "name" = Ok (VStr n))
    (take 5 competitors) ->
  getitem data "market_insights" = Ok (VDict insights) ->
  exists out log', Enricher.main net data log = (Ok out, log').
Proof.
  intros Hm Hid Hwf Hc Hnames Hi. unfold Enricher.main, getitem2.
  rewrite Hm. cbn [bind]. rewrite Hid. unfold get_app_reviews.
  destruct (pages_loop net app_id (seq 1 5) []) as [reviews [e|]];
    cbn [fst] in Hwf;
    destruct (enrich_returns data reviews competitors mixcam insights
                Hwf Hc Hnames Hi Hm) as [out ->]; eauto.
Qed.

End Enrichment.

(** * More on the review classifier *)

Section Buckets.

(** What an iteration adds depends on the review only. *)
Lemma analyze_step_delta (b b' : buckets) (review : value) :
  analyze_step b review = Ok b' ->
  exists dc df dp,
    b' = Buckets (complaints b ++ dc) (features_requested b ++ df)
                 (positive_features b ++ dp) /\
    (forall b0, analyze_step b0 review
                = Ok (Buckets (complaints b0 ++ dc)
                              (features_requested b0 ++ df)
                              (positive_features b0 ++ dp))) /\
    (List.length dc + List.length dp <= 1)%nat /\
    (List.length df <= 1)%nat /\
    Forall (fun r => exists n, stored_rating r = Some n /\ n <= 3) dc /\
    Forall (fun r => exists n, stored_rating r = Some n /\ 4 <= n) dp.
Proof.
  intros Hstep.
  destruct (analyze_step_returns _ _ _ Hstep)
    as (content & title & rating & Hc & Ht & Hr).
  destruct (analyze_step_read b review _ _ _ Hc Ht Hr) as (raw & Hraw & H).
  assert (forall b0, exists raw0,
            label_of review "title" (VStr "") = Ok raw0 /\ _) as Hany
    by (intros b0; exact (analyze_step_read b0 review _ _ _ Hc Ht Hr)).
  remember (any_keyword feature_keywords (full_text title content)) as fk.
  remember (any_keyword positive_keywords (full_text title content)) as pk.
  rewrite Hstep in H. injection H as ->.
  eexists _, _, _. split; [reflexivity|]. split.
  - intros b0. destruct (Hany b0) as (raw0 & Hraw0 & H).
    rewrite Hraw in Hraw0. injection Hraw0 as <-. exact H.
  - clear Hany Hstep.
    destruct (rating <=? 3) eqn:E1, (4 <=? rating) eqn:E2;
      try apply Z.leb_le in E1; try apply Z.leb_le in E2;
      try apply Z.leb_gt in E1; try apply Z.leb_gt in E2;
      try lia; destruct pk, fk; cbn [andb List.length Nat.add];
      (split; [lia|split; [lia|split]]);
      first [ solve [constructor]
            | constructor; [|solve [constructor]];
              exists rating; split; [reflexivity | lia] ].
Qed.

Lemma analyze_loop_delta (reviews : list value) (b b' : buckets) :
  analyze_loop b reviews = Ok b' ->
  exists dc df dp,
    b' = Buckets (complaints b ++ dc) (features_requested b ++ df)
                 (positive_features b ++ dp) /\
    (forall b0, analyze_loop b0 reviews
                = Ok (Buckets (complaints b0 ++ dc)
                              (features_requested b0 ++ df)
                              (positive_features b0 ++ dp))) /\
    (List.length dc + List.length dp <= List.length reviews)%nat /\
    (List.length df <= List.length reviews)%nat /\
    Forall (fun r => exists n, stored_rating r = Some n /\ n <= 3) dc /\
    Forall (fun r => exists n, stored_rating r = Some n /\ 4 <= n) dp.
Proof.
  revert b b'. induction reviews as [|review rest IH]; intros b b' Hloop.
  - injection Hloop as <-. exists [], [], []. rewrite !app_nil_r.
    destruct b. repeat split; try constructor.
    intros [c f p]. cbn. now rewrite !app_nil_r.
  - cbn [analyze_loop] in Hloop.
    apply bind_ok in Hloop as (b1 & Hstep & Hloop).
    destruct (analyze_step_delta _ _ _ Hstep)
      as (dc1 & df1 & dp1 & -> & Hany1 & Hn1 & Hf1 & Hc1 & Hp1).
    destruct (IH _ _ Hloop)
      as (dc2 & df2 & dp2 & -> & Hany2 & Hn2 & Hf2 & Hc2 & Hp2).
    exists (dc1 ++ dc2), (df1 ++ df2), (dp1 ++ dp2).
    cbn [complaints features_requested positive_features].
    rewrite <- !app_assoc. split; [reflexivity|]. split.
    + intros b0. cbn [analyze_loop]. rewrite Hany1. cbn [bind].
      rewrite Hany2. cbn [complaints features_requested positive_features].
      now rewrite <- !app_assoc.
    + rewrite !length_app. cbn [List.length].
      repeat split; try lia; apply Forall_app; split; assumption.
Qed.

Lemma analyze_reviews_delta (reviews cs fs ps : list value) :
  analyze_reviews reviews = Ok (cs, fs, ps) ->
  (forall b0, analyze_loop b0 reviews
              = Ok (Buckets (complaints b0 ++ cs)
                            (features_requested b0 ++ fs)
                            (positive_features b0 ++ ps))) /\
  (List.length cs + List.length ps <= List.length reviews)%nat /\
  (List.length fs <= List.length reviews)%nat /\
  Forall (fun r => exists n, stored_rating r = Some n /\ n <= 3) cs /\
  Forall (fun r => exists n, stored_rating r = Some n /\ 4 <= n) ps.
Proof.
  unfold analyze_reviews. intros H. apply bind_ok in H as (b & Hloop & H).
  injection H as <- <- <-.
  destruct (analyze_loop_delta _ _ _ Hloop)
    as (dc & df & dp & -> & Hany & Hrest).
  exact (conj Hany Hrest).
Qed.

Lemma analyze_loop_app (l1 l2 : list value) (b : buckets) :
  analyze_loop b (l1 ++ l2)
  = bind (analyze_loop b l1) (fun b' => analyze_loop b' l2).
Proof.
  revert b. induction l1 as [|review l1 IH]; intros b; [reflexivity|].
  cbn [List.app analyze_loop].
  destruct (analyze_step b review) as [b1|e]; cbn [bind]; [apply IH|reflexivity].
Qed.

(** X1.  Two lists of reviews can be analysed apart and the buckets
    joined: when both analyses return, the analysis of the two lists one
    after the other returns the buckets of the first followed by those of
    the second. *)
Theorem analyze_reviews_of_two_lists (l1 l2 : list value)
  (c1 f1 p1 c2 f2 p2 : list value) :
  analyze_reviews l1 = Ok (c1, f1, p1) ->
  analyze_reviews l2 = Ok (c2, f2, p2) ->
  analyze_reviews (l1 ++ l2) = Ok (c1 ++ c2, f1 ++ f2, p1 ++ p2).
Proof.
  intros H1 H2.
  destruct (analyze_reviews_delta _ _ _ _ H1) as (Hany1 & _).
  destruct (analyze_reviews_delta _ _ _ _ H2) as (Hany2 & _).
  unfold analyze_reviews. rewrite analyze_loop_app, Hany1. cbn [bind].
  rewrite Hany2. reflexivity.
Qed.

Lemma analyze_reviews_of_two_lists_witness :
  exists c1 f1 p1 c2 f2 p2,
    analyze_reviews [low_review] = Ok (c1, f1, p1) /\
    analyze_reviews [bare_review; high_review] = Ok (c2, f2, p2) /\
    analyze_reviews [low_review; bare_review; high_review]
    = Ok (c1 ++ c2, f1 ++ f2, p1 ++ p2).
Proof.
  eexists _, _, _, _, _, _.
  split; [vm_compute; reflexivity|]. split; [vm_compute; reflexivity|].
  exact (analyze_reviews_of_two_lists [low_review] [bare_review; high_review]
           _ _ _ _ _ _ eq_refl eq_refl).
Defined.

(** X2.  No review is counted twice between complaints and positive
    mentions: the two buckets together hold at most one record per review,
    and so does the feature-requests bucket. *)
Theorem bucket_sizes (reviews cs fs ps : list value) :
  analyze_reviews reviews = Ok (cs, fs, ps) ->
  (List.length cs + List.length ps <= List.length reviews)%nat /\
  (List.length fs <= List.length reviews)%nat.
Proof.
  intros H. destruct (analyze_reviews_delta _ _ _ _ H) as (_ & Hn & Hf & _).
  exact (conj Hn Hf).
Qed.

Lemma bucket_sizes_witness :
  exists cs fs ps,
    analyze_reviews [low_review; bare_review; high_review] = Ok (cs, fs, ps) /\
    (List.length cs + List.length ps <= 3)%nat /\
    (List.length fs <= 3)%nat.
Proof.
  eexists _, _, _. split; [vm_compute; reflexivity|].
  exact (bucket_sizes [low_review; bare_review; high_review] _ _ _ eq_refl).
Defined.

(** X3.  Every record of the complaints bucket stores an integer rating of
    at most 3, and every record of the positive-mentions bucket an integer
    rating of at least 4. *)
Theorem stored_ratings_fit_the_bucket (reviews cs fs ps : list value) :
  analyze_reviews reviews = Ok (cs, fs, ps) ->
  Forall (fun r => exists n, stored_rating r = Some n /\ n <= 3) cs /\
  Forall (fun r => exists n, stored_rating r = Some n /\ 4 <= n) ps.
Proof.
  intros H.
  destruct (analyze_reviews_delta _ _ _ _ H) as (_ & _ & _ & Hc & Hp).
  exact (conj Hc Hp).
Qed.

Lemma stored_ratings_fit_the_bucket_witness :
  exists cs fs ps,
    analyze_reviews [low_review; bare_review; high_review] = Ok (cs, fs, ps) /\
    Forall (fun r => exists n, stored_rating r = Some n /\ n <= 3) cs /\
    Forall (fun r => exists n, stored_rating r = Some n /\ 4 <= n) ps.
Proof.
  eexists _, _, _. split; [vm_compute; reflexivity|].
  exact (stored_ratings_fit_the_bucket
           [low_review; bare_review; high_review] _ _ _ eq_refl).
Defined.

(** X4.  Every record of the three buckets stores a text of at most 200
    characters, under [snippet] or under [text]. *)
Theorem bucket_texts_are_capped (reviews cs fs ps : list value) :
  analyze_reviews reviews = Ok (cs, fs, ps) ->
  forallb capped (cs ++ fs ++ ps) = true.
Proof.
  intros H. destruct (every_stored_text_is_capped _ _ _ _ H) as (Hc & Hf & Hp).
  now rewrite !forallb_app, Hc, Hf, Hp.
Qed.

Lemma bucket_texts_are_capped_witness :
  exists cs fs ps,
    analyze_reviews [shouting_review; low_review; high_review]
    = Ok (cs, fs, ps) /\
    forallb capped (cs ++ fs ++ ps) = true.
Proof.
  eexists _, _, _. split; [vm_compute; reflexivity|].
  exact (bucket_texts_are_capped [shouting_review; low_review; high_review]
           _ _ _ eq_refl).
Defined.

(** X5.  The analysis returns exactly when every record is well-formed:
    one record with a malformed field makes it raise, and the buckets of
    all the other reviews are lost with it. *)
Theorem analysis_returns_iff_all_well_formed (reviews : list value) :
  (exists result, analyze_reviews reviews = Ok result) <->
  forallb well_formed reviews = true.
Proof. rewrite <- analyze_reviews_ok. symmetry. apply is_ok_true. Qed.

Lemma analysis_returns_iff_all_well_formed_witness :
  (exists result, analyze_reviews [low_review; high_review] = Ok result) /\
  ~ (exists result,
       analyze_reviews [low_review; worded_review; high_review] = Ok result).
Proof.
  split.
  - exact (proj2 (analysis_returns_iff_all_well_formed
                    [low_review; high_review]) eq_refl).
  - intros H.
    pose proof (proj1 (analysis_returns_iff_all_well_formed
                         [low_review; worded_review; high_review]) H) as Hwf.
    vm_compute in Hwf. discriminate Hwf.
Defined.

End Buckets.

(** * More on the review download *)

Section Pages.

Variable net : value -> nat -> outcome value.
Variable app_id : value.

Lemma page_step_acc (page : nat) (all_reviews : list value) :
  page_step net app_id page all_reviews
  = bind (page_step net app_id page [])
         (fun entries => Ok (all_reviews ++ entries)).
Proof.
  unfold page_step.
  destruct (requests_get (net app_id page)) as [response|e]; cbn [bind];
    [|reflexivity].
  destruct (fst response =? 200); [|cbn; now rewrite app_nil_r].
  destruct (response_json response) as [data|e]; cbn [bind]; [|reflexivity].
  destruct (dict_get data "feed" (VDict [])) as [feed|e]; cbn [bind];
    [|reflexivity].
  destruct (dict_get feed "entry" (VList [])) as [entries|e]; cbn [bind];
    [|reflexivity].
  destruct entries; cbn; now rewrite ?app_nil_r.
Qed.

Lemma pages_loop_fine (pages : list nat) (all_reviews : list value) :
  (forall page, In page pages ->
                is_ok (page_step net app_id page []) = true) ->
  pages_loop net app_id pages all_reviews
  = (all_reviews ++ flat_map (page_reviews net app_id) pages, None).
Proof.
  revert all_reviews. induction pages as [|page rest IH]; intros acc Hfine.
  - simpl. now rewrite app_nil_r.
  - cbn [pages_loop flat_map]. rewrite page_step_acc. unfold page_reviews at 1.
    pose proof (Hfine page (or_introl eq_refl)) as Hpage.
    destruct (page_step net app_id page []) as [entries|e]; [|discriminate].
    cbn [bind]. rewrite IH by (intros p Hp; apply Hfine; now right).
    now rewrite <- app_assoc.
Qed.

Lemma pages_loop_stops (before after : list nat) (page : nat) (e : exn)
  (all_reviews : list value) :
  (forall p, In p before -> is_ok (page_step net app_id p []) = true) ->
  page_step net app_id page [] = Raise e ->
  pages_loop net app_id (before ++ page :: after) all_reviews
  = (all_reviews ++ flat_map (page_reviews net app_id) before, Some e).
Proof.
  revert all_reviews. induction before as [|p rest IH]; intros acc Hfine Hpage.
  - cbn [List.app pages_loop flat_map]. rewrite page_step_acc, Hpage. cbn.
    now rewrite app_nil_r.
  - cbn [List.app pages_loop flat_map]. rewrite page_step_acc.
    unfold page_reviews at 1.
    pose proof (Hfine p (or_introl eq_refl)) as Hp.
    destruct (page_step net app_id p []) as [entries|e0]; [|discriminate].
    cbn [bind]. rewrite IH; [now rewrite <- app_assoc| |exact Hpage].
    intros q Hq. apply Hfine. now right.
Qed.

(** X6.  When no page makes the loop raise, [get_app_reviews] returns the
    reviews of the pages 1 to [max_pages], page after page in that order,
    and prints nothing. *)
Theorem reviews_are_the_pages_in_order (max_pages : nat) (log : list line) :
  (forall page, (1 <= page <= max_pages)%nat ->
                is_ok (page_step net app_id page []) = true) ->
  get_app_reviews net app_id max_pages log
  = (Ok (flat_map (page_reviews net app_id) (seq 1 max_pages)), log).
Proof.
  intros Hfine. unfold get_app_reviews. rewrite pages_loop_fine; [reflexivity|].
  intros page Hin. apply Hfine. apply in_seq in Hin. lia.
Qed.

(** X7.  When the pages 1 to [k] do not make the loop raise and page
    [k + 1] does, with [k < max_pages], [get_app_reviews] returns the
    reviews of the pages 1 to [k], prints one line with the exception, and
    the later pages add nothing. *)
Theorem exception_keeps_the_earlier_pages (max_pages k : nat) (e : exn)
  (log : list line) :
  (k < max_pages)%nat ->
  (forall page, (1 <= page <= k)%nat ->
                is_ok (page_step net app_id page []) = true) ->
  page_step net app_id (S k) [] = Raise e ->
  get_app_reviews net app_id max_pages log
  = (Ok (flat_map (page_reviews net app_id) (seq 1 k)),
     log ++ [("Error fetching reviews", e)]).
Proof.
  intros Hk Hfine Hraise. unfold get_app_reviews.
  replace max_pages with (k + S (max_pages - S k))%nat by lia.
  rewrite seq_app. cbn [seq Nat.add].
  rewrite (pages_loop_stops _ _ _ e); [reflexivity| |exact Hraise].
  intros p Hin. apply Hfine. apply in_seq in Hin. lia.
Qed.

End Pages.

Section PageShapes.

(** X8.  What one page adds: a 200 answer whose body is an object with a
    list under [feed.entry] adds the items of the list, a single object
    under [feed.entry] adds that one object, any other entry (a missing
    one too) adds nothing, and so does an answer that is not 200. *)
Theorem page_reviews_by_shape (net : value -> nat -> outcome value)
  (app_id : value) (page : nat) :
  (forall status_code body,
     net app_id page = Response status_code body -> status_code <> 200 ->
     page_step net app_id page [] = Ok []) /\
  (forall d feed,
     net app_id page = Response 200 (Some (VDict d)) ->
     assoc "feed" d = Some (VDict feed) ->
     page_step net app_id page []
     = Ok match assoc "entry" feed with
          | Some (VList entries) => entries
          | Some (VDict entry) => [VDict entry]
          | _ => []
          end) /\
  (forall d,
     net app_id page = Response 200 (Some (VDict d)) ->
     assoc "feed" d = None ->
     page_step net app_id page [] = Ok []).
Proof.
  split; [|split].
  - intros status_code body Hnet Hstatus. unfold page_step. rewrite Hnet. cbn.
    apply Z.eqb_neq in Hstatus. now rewrite Hstatus.
  - intros d feed Hnet Hfeed. unfold page_step. rewrite Hnet. cbn.
    rewrite Hfeed. cbn. destruct (assoc "entry" feed) as [[]|]; reflexivity.
  - intros d Hnet Hfeed. unfold page_step. rewrite Hnet. cbn.
    now rewrite Hfeed.
Qed.

End PageShapes.

Section PagesWitnesses.

Lemma reviews_are_the_pages_in_order_witness :
  get_app_reviews reviews_net (VInt 1234) 3 []
  = (Ok [low_review; high_review; bare_review], []).
Proof.
  refine (reviews_are_the_pages_in_order reviews_net (VInt 1234) 3 [] _).
  intros page H.
  destruct page as [|[|[|[|page]]]]; try reflexivity; exfalso; lia.
Defined.

Lemma exception_keeps_the_earlier_pages_witness :
  get_app_reviews reviews_net (VInt 1234) 5 []
  = (Ok [low_review; high_review; bare_review],
     [("Error fetching reviews", RequestException)]).
Proof.
  refine (exception_keeps_the_earlier_pages reviews_net (VInt 1234) 5 3
            RequestException [] _ _ eq_refl).
  - lia.
  - intros page H.
    destruct page as [|[|[|[|page]]]]; try reflexivity; exfalso; lia.
Defined.

Lemma page_reviews_by_shape_witness :
  page_step reviews_net (VInt 1234) 2 [] = Ok [bare_review] /\
  page_step reviews_net (VInt 1234) 3 [] = Ok [].
Proof.
  split.
  - exact (proj1 (proj2 (page_reviews_by_shape reviews_net (VInt 1234) 2))
             _ _ eq_refl eq_refl).
  - refine (proj1 (page_reviews_by_shape reviews_net (VInt 1234) 3)
              404 None eq_refl _). discriminate.
Defined.

End PagesWitnesses.

(** * More on the enricher *)

Section Enriched.

Lemma assoc_set_id (k : string) (v : value) (d : list (string * value)) :
  assoc k d = Some v -> assoc_set k v d = d.
Proof.
  induction d as [|[k' v'] d IH]; simpl; [discriminate|].
  destruct (String.eqb k k'); [now intros [= ->] | intros H; now rewrite IH].
Qed.

Lemma keys_assoc_set (k : string) (v : value) (d : list (string * value)) :
  map fst (assoc_set k v d)
  = match assoc k d with
    | Some _ => map fst d
    | None => map fst d ++ [k]
    end.
Proof.
  induction d as [|[k' v'] d IH]; simpl; [reflexivity|].
  destruct (String.eqb k k'); simpl; [reflexivity|].
  rewrite IH. now destruct (assoc k d).
Qed.

(** Writing again what is there changes nothing. *)
Lemma set_nested_same (x : value) (outer inner : string) (v : value) :
  getitem2 x outer inner = Ok v -> set_nested x outer inner v = Ok x.
Proof.
  unfold getitem2, set_nested. intros H.
  apply bind_ok in H as (t & Ht & Hv). rewrite Ht. cbn [bind].
  destruct x as [| | | | | |d]; try discriminate.
  destruct t as [| | | | | |td]; try discriminate.
  cbn in Ht, Hv |- *.
  destruct (assoc inner td) as [v'|] eqn:Hinner; [|discriminate].
  injection Hv as ->. rewrite (assoc_set_id _ _ _ Hinner).
  destruct (assoc outer d) as [t'|] eqn:Houter; [|discriminate].
  injection Ht as ->. now rewrite (assoc_set_id _ _ _ Houter).
Qed.

Lemma set_nested_keys (data data' : value) (outer inner : string)
  (v : value) :
  set_nested data outer inner v = Ok data' ->
  keys data' = keys data /\
  exists t t',
    getitem data outer = Ok t /\ getitem data' outer = Ok t' /\
    keys t' = if is_ok (getitem t inner) then keys t
              else keys t ++ [inner].
Proof.
  unfold set_nested. intros H.
  apply bind_ok in H as (t & Ht & H).
  apply bind_ok in H as (t' & Ht' & H).
  destruct data as [| | | | | |d]; try discriminate.
  destruct t as [| | | | | |td]; try discriminate.
  cbn in Ht, Ht', H. injection Ht' as <-. injection H as <-.
  destruct (assoc outer d) as [t0|] eqn:Houter; [|discriminate].
  injection Ht as ->. split.
  - cbn. now rewrite keys_assoc_set, Houter.
  - exists (VDict td), (VDict (assoc_set inner v td)). cbn.
    rewrite Houter, assoc_set_eq. repeat split.
    rewrite keys_assoc_set. now destruct (assoc inner td).
Qed.

(** The analysis written under [mixcam]. *)
Lemma enrich_review_analysis (data out : value)
  (reviews cs fs ps : list value) :
  enrich data reviews = Ok out ->
  analyze_reviews reviews = Ok (cs, fs, ps) ->
  getitem2 out "mixcam" "review_analysis"
  = Ok (VDict [("total_reviews_analyzed",
                VInt (Z.of_nat (List.length reviews)));
               ("complaints", VList (take 10 cs));
               ("feature_requests", VList (take 10 fs));
               ("positive_mentions", VList (take 10 ps))]).
Proof.
  unfold enrich. intros H Han. rewrite Han in H. cbn [bind] in H.
  apply bind_ok in H as (competitors & _ & H).
  apply bind_ok in H as (top & _ & H).
  apply bind_ok in H as (items & _ & H).
  apply bind_ok in H as (u & _ & H).
  apply bind_ok in H as (d1 & _ & H).
  apply bind_ok in H as (d2 & _ & H).
  apply bind_ok in H as (d3 & _ & H).
  apply bind_ok in H as (d4 & _ & H).
  exact (proj2 (proj2 (set_nested_frame _ _ _ _ _ H))).
Qed.

Lemma enrich_analysis (data out : value) (reviews : list value) :
  enrich data reviews = Ok out ->
  exists cs fs ps, analyze_reviews reviews = Ok (cs, fs, ps).
Proof.
  unfold enrich. intros H. apply bind_ok in H as ([[cs fs] ps] & Han & _).
  eauto.
Qed.

(** X9.  When the enricher writes its document, [review_analysis] holds
    the number of all the reviews fetched for the [app_id] of the target
    app, and of each bucket the first 10 records at most. *)
Theorem review_analysis_holds_the_first_ten
  (net : value -> nat -> outcome value) (data out : value)
  (log log' : list line) :
  Enricher.main net data log = (Ok out, log') ->
  exists app_id reviews cs fs ps,
    getitem2 data "mixcam" "app_id" = Ok app_id /\
    get_app_reviews net app_id 5 log = (Ok reviews, log') /\
    analyze_reviews reviews = Ok (cs, fs, ps) /\
    getitem2 out "mixcam" "review_analysis"
    = Ok (VDict [("total_reviews_analyzed",
                  VInt (Z.of_nat (List.length reviews)));
                 ("complaints", VList (take 10 cs));
                 ("feature_requests", VList (take 10 fs));
                 ("positive_mentions", VList (take 10 ps))]) /\
    (List.length (take 10 cs) <= 10)%nat /\
    (List.length (take 10 fs) <= 10)%nat /\
    (List.length (take 10 ps) <= 10)%nat.
Proof.
  unfold Enricher.main. intros H.
  destruct (getitem2 data "mixcam" "app_id") as [app_id|e] eqn:Hid;
    [|discriminate].
  destruct (get_app_reviews net app_id 5 log) as [[reviews|e] log1] eqn:Hget;
    [|discriminate].
  injection H as H <-.
  destruct (enrich_analysis _ _ _ H) as (cs & fs & ps & Han).
  exists app_id, reviews, cs, fs, ps.
  split; [reflexivity|]. split; [exact Hget|]. split; [exact Han|].
  split; [exact (enrich_review_analysis _ _ _ _ _ _ H Han)|].
  rewrite !length_take. lia.
Qed.

Lemma review_analysis_holds_the_first_ten_witness :
  exists out log',
    Enricher.main reviews_net sample_document [] = (Ok out, log') /\
    exists cs fs ps,
      analyze_reviews [low_review; high_review; bare_review]
      = Ok (cs, fs, ps) /\
      getitem2 out "mixcam" "review_analysis"
      = Ok (VDict [("total_reviews_analyzed", VInt 3);
                   ("complaints", VList (take 10 cs));
                   ("feature_requests", VList (take 10 fs));
                   ("positive_mentions", VList (take 10 ps))]).
Proof.
  eexists _, _. split; [vm_compute; reflexivity|].
  destruct (review_analysis_holds_the_first_ten
              reviews_net sample_document _ [] _ eq_refl)
    as (app_id & reviews & cs & fs & ps & _ & Hget & Han & Hra & _).
  vm_compute in Hget. injection Hget as <-.
  exists cs, fs, ps. split; [exact Han | exact Hra].
Defined.

(** X10.  Enriching an enriched document again, with the same reviews,
    writes the same document: the five assignments only repeat what is
    there. *)
Theorem enrich_again_changes_nothing (data out : value)
  (reviews : list value) :
  enrich data reviews = Ok out -> enrich out reviews = Ok out.
Proof.
  intros H.
  destruct (enrich_analysis _ _ _ H) as (cs & fs & ps & Han).
  pose proof (enrich_review_analysis _ _ _ _ _ _ H Han) as Hra.
  destruct (enrich_frame _ _ _ H) as (Htop & _ & _ & H1 & H2 & H3 & H4 & _).
  pose proof H as H0. unfold enrich in H0. rewrite Han in H0. cbn [bind] in H0.
  apply bind_ok in H0 as (competitors & Hc & H0).
  apply bind_ok in H0 as (top & Ht & H0).
  apply bind_ok in H0 as (items & Hi & H0).
  apply bind_ok in H0 as (u & Hu & _).
  unfold enrich. rewrite Han. cbn [bind].
  rewrite (Htop "competitors") by discriminate. rewrite Hc. cbn [bind].
  rewrite Ht. cbn [bind]. rewrite Hi. cbn [bind]. rewrite Hu. cbn [bind].
  rewrite (set_nested_same _ _ _ _ H1). cbn [bind].
  rewrite (set_nested_same _ _ _ _ H2). cbn [bind].
  rewrite (set_nested_same _ _ _ _ H3). cbn [bind].
  rewrite (set_nested_same _ _ _ _ H4). cbn [bind].
  exact (set_nested_same _ _ _ _ Hra).
Qed.

Lemma enrich_again_changes_nothing_witness :
  exists out,
    enrich sample_document [low_review; high_review] = Ok out /\
    enrich out [low_review; high_review] = Ok out.
Proof.
  eexists. split; [vm_compute; reflexivity|].
  exact (enrich_again_changes_nothing sample_document _
           [low_review; high_review] eq_refl).
Defined.

Lemma set_nested_present (data data' : value) (outer inner : string)
  (v t : value) :
  set_nested data outer inner v = Ok data' ->
  getitem data outer = Ok t ->
  is_ok (getitem t inner) = true ->
  exists t',
    getitem data' outer = Ok t' /\ keys t' = keys t /\
    forall k, k <> inner -> getitem t' k = getitem t k.
Proof.
  intros H Ht Hin.
  destruct (set_nested_keys _ _ _ _ _ H) as (_ & t0 & t' & Ht0 & Ht' & Hk).
  rewrite Ht in Ht0. injection Ht0 as <-. rewrite Hin in Hk.
  exists t'. split; [exact Ht'|]. split; [exact Hk|].
  intros k Hne.
  pose proof (proj1 (proj2 (set_nested_frame _ _ _ _ _ H)) k Hne) as Hf.
  unfold getitem2 in Hf. now rewrite Ht', Ht in Hf.
Qed.

(** X11.  The enricher keeps the order of the keys: the written document
    has the top-level keys of the loaded one in the same order; under
    [mixcam] the old keys keep their places and [review_analysis] goes to
    the end unless it was there; under [market_insights], when the four
    taxonomy keys are there already (the collector writes them), no key
    moves. *)
Theorem enrich_keeps_the_key_order (data out : value)
  (reviews : list value) :
  enrich data reviews = Ok out ->
  keys out = keys data /\
  (exists target target',
     getitem data "mixcam" = Ok target /\
     getitem out "mixcam" = Ok target' /\
     keys target' = if is_ok (getitem target "review_analysis")
                    then keys target
                    else keys target ++ ["review_analysis"]) /\
  (exists insights insights',
     getitem data "market_insights" = Ok insights /\
     getitem out "market_insights" = Ok insights' /\
     (is_ok (getitem insights "standard_features") = true ->
      is_ok (getitem insights "innovative_features") = true ->
      is_ok (getitem insights "pricing_models") = true ->
      is_ok (getitem insights "ui_trends") = true ->
      keys insights' = keys insights)).
Proof.
  unfold enrich. intros H.
  apply bind_ok in H as ([[cs fs] ps] & _ & H).
  apply bind_ok in H as (competitors & _ & H).
  apply bind_ok in H as (top & _ & H).
  apply bind_ok in H as (items & _ & H).
  apply bind_ok in H as (u & _ & H).
  apply bind_ok in H as (d1 & H1 & H).
  apply bind_ok in H as (d2 & H2 & H).
  apply bind_ok in H as (d3 & H3 & H).
  apply bind_ok in H as (d4 & H4 & H5).
  destruct (set_nested_keys _ _ _ _ _ H1) as (K1 & t1 & t1' & G1 & G1' & _).
  destruct (set_nested_keys _ _ _ _ _ H2) as (K2 & _).
  destruct (set_nested_keys _ _ _ _ _ H3) as (K3 & _).
  destruct (set_nested_keys _ _ _ _ _ H4) as (K4 & t4 & t4' & G4 & G4' & _).
  destruct (set_nested_keys _ _ _ _ _ H5) as (K5 & t5 & t5' & G5 & G5' & KK5).
  pose proof (proj1 (set_nested_frame _ _ _ _ _ H1)) as T1.
  pose proof (proj1 (set_nested_frame _ _ _ _ _ H2)) as T2.
  pose proof (proj1 (set_nested_frame _ _ _ _ _ H3)) as T3.
  pose proof (proj1 (set_nested_frame _ _ _ _ _ H4)) as T4.
  pose proof (proj1 (set_nested_frame _ _ _ _ _ H5)) as T5.
  split; [congruence|]. split.
  - exists t5, t5'. split; [|split; [exact G5' | exact KK5]].
    rewrite <- G5, T4, T3, T2, T1 by discriminate. reflexivity.
  - exists t1, t4'. split; [exact G1|]. split.
    + rewrite T5 by discriminate. exact G4'.
    + intros P1 P2 P3 P4.
      destruct (set_nested_present _ _ _ _ _ _ H1 G1 P1)
        as (u1 & U1 & E1 & F1).
      rewrite <- (F1 "innovative_features") in P2 by discriminate.
      rewrite <- (F1 "pricing_models") in P3 by discriminate.
      rewrite <- (F1 "ui_trends") in P4 by discriminate.
      destruct (set_nested_present _ _ _ _ _ _ H2 U1 P2)
        as (u2 & U2 & E2 & F2).
      rewrite <- (F2 "pricing_models") in P3 by discriminate.
      rewrite <- (F2 "ui_trends") in P4 by discriminate.
      destruct (set_nested_present _ _ _ _ _ _ H3 U2 P3)
        as (u3 & U3 & E3 & F3).
      rewrite <- (F3 "ui_trends") in P4 by discriminate.
      destruct (set_nested_present _ _ _ _ _ _ H4 U3 P4)
        as (u4 & U4 & E4 & _).
      rewrite G4' in U4. injection U4 as <-. congruence.
Qed.

Lemma enrich_keeps_the_key_order_witness :
  exists out,
    enrich sample_document [low_review; high_review] = Ok out /\
    keys out = ["research_date"; "mixcam"; "competitors"; "market_insights"].
Proof.
  eexists. split; [vm_compute; reflexivity|].
  exact (proj1 (enrich_keeps_the_key_order sample_document _
                  [low_review; high_review] eq_refl)).
Defined.

(** X12.  The enricher reaches the point where it writes its document
    whenever the loaded document holds a dict with an [app_id] under
    [mixcam], a dict under [market_insights] and a list under
    [competitors] whose first five items carry a str [name], and the
    reviews downloaded for that [app_id] are well-formed; competitors
    after the fifth are not looked at. *)
Theorem enricher_returns_on_a_usable_document
  (net : value -> nat -> outcome value) (data app_id : value)
  (competitors : list value) (target insights : list (string * value))
  (log : list line) :
  getitem data "mixcam" = Ok (VDict target) ->
  getitem (VDict target) "app_id" = Ok app_id ->
  forallb well_formed (fst (pages_loop net app_id (seq 1 5) [])) = true ->
  getitem data "competitors" = Ok (VList competitors) ->
  Forall (fun c => exists n, getitem c "name" = Ok (VStr n))
    (take 5 competitors) ->
  getitem data "market_insights" = Ok (VDict insights) ->
  exists out log', Enricher.main net data log = (Ok out, log').
Proof. apply main_returns. Qed.

Lemma enricher_returns_on_a_usable_document_witness :
  exists out log',
    Enricher.main reviews_net sample_document [] = (Ok out, log').
Proof.
  refine (enricher_returns_on_a_usable_document reviews_net sample_document
            (VInt 1234) _ _ _ [] eq_refl eq_refl eq_refl eq_refl _ eq_refl).
  repeat constructor. eexists. reflexivity.
Defined.

End Enriched.

(** * More on the ranking *)

Section Ranked.

Local Abbreviation key x := (sort_key x).

Lemma insert_at_end (x : competitor) (l : list competitor) :
  Forall (fun y => rated y = rated x) l ->
  Forall (fun y => key_ltb (key x) (key y) = false) l ->
  insert x l = Ok (l ++ [x]).
Proof.
  induction l as [|y l IH]; intros Hkind Hlast; [reflexivity|].
  inversion Hkind as [|? ? Hy Hl]; subst.
  inversion Hlast as [|? ? Hxy Hrest]; subst.
  cbn [insert]. rewrite key_lt_same_kind by (symmetry; exact Hy).
  cbn [bind]. rewrite Hxy, (IH Hl Hrest). reflexivity.
Qed.

(** Sorting what is in order leaves it as it is. *)
Lemma sort_loop_ascending (k : bool) (rest sorted : list competitor) :
  Forall (fun y => rated y = k) (sorted ++ rest) ->
  StronglySorted (fun x y => key_ltb (key y) (key x) = false)
    (sorted ++ rest) ->
  sort_loop sorted rest = Ok (sorted ++ rest).
Proof.
  revert sorted. induction rest as [|x rest IH]; intros sorted Hkind Hasc.
  - now rewrite app_nil_r.
  - cbn [sort_loop]. rewrite insert_at_end.
    + cbn [bind]. rewrite (IH (sorted ++ [x])); rewrite <- ?app_assoc;
        [reflexivity | exact Hkind | exact Hasc].
    + apply Forall_app in Hkind as [Hs Hx]. inversion Hx; subst.
      eapply List.Forall_impl; [|exact Hs]. cbn beta. congruence.
    + apply List.Forall_forall. intros y Hy.
      apply (StronglySorted_app_1_elem_of _ _ _ y x Hasc).
      * apply list_elem_of_In. exact Hy.
      * left.
Qed.

Lemma one_kind_of_forall (k : bool) (l : list competitor) :
  Forall (fun y => rated y = k) l -> one_kind l = true.
Proof.
  intros H. unfold one_kind. apply orb_true_iff.
  destruct k; [left | right]; apply forallb_forall; intros x Hx;
    apply (proj1 (List.Forall_forall _ _) H) in Hx; now rewrite Hx.
Qed.

Lemma sorted_reverse_descending (k : bool) (s : list competitor) :
  Forall (fun y => rated y = k) s ->
  StronglySorted (fun x y => key_ltb (key x) (key y) = false) s ->
  sorted_reverse s = Ok s.
Proof.
  intros Hkind Hdesc. unfold sorted_reverse.
  rewrite (sort_loop_ascending k (rev s) []).
  - cbn. now rewrite rev_involutive.
  - cbn. apply List.Forall_rev. exact Hkind.
  - cbn. apply (strongly_sorted_rev _ s Hdesc).
Qed.

(** The sorted list behind a ranking. *)
Lemma rank_sorted (l r : list competitor) :
  rank l = Ok r ->
  exists k s,
    Forall (fun y => rated y = k) s /\
    stable_descending_sort l s /\ r = take 10 s.
Proof.
  intros Hr.
  assert (one_kind l = true) as Hkind
    by (rewrite <- rank_defined_iff_one_kind, Hr; reflexivity).
  destruct (rank_is_stable_descending_top_10 l Hkind) as (s & Hs & Hrank).
  destruct (one_kind_true l Hkind) as [k Hk].
  exists k, s. split; [|split; [exact Hs | congruence]].
  eapply Permutation_Forall; [exact (proj1 Hs) | exact Hk].
Qed.

(** X13.  Ranking a ranking gives it back: the list the ranking returns
    is in order and no longer than 10, so a second ranking neither moves
    nor drops a record. *)
Theorem rank_again_changes_nothing (l r : list competitor) :
  rank l = Ok r -> rank r = Ok r.
Proof.
  intros Hr. destruct (rank_sorted l r Hr) as (k & s & Hk & (_ & Hs & _) & ->).
  unfold rank. rewrite (sorted_reverse_descending k).
  - cbn [bind]. rewrite take_take. reflexivity.
  - apply Forall_take. exact Hk.
  - rewrite <- (take_drop 10 s) in Hs.
    exact (StronglySorted_app_1_l _ _ _ Hs).
Qed.

Lemma rank_again_changes_nothing_witness :
  exists r, rank rated_competitors = Ok r /\ rank r = Ok r.
Proof.
  eexists. split; [vm_compute; reflexivity|].
  exact (rank_again_changes_nothing rated_competitors _ eq_refl).
Defined.

(** X14.  The ranking keeps the top: the records it returns together with
    the records it drops are the records it was given, it returns 10 of
    them (all of them when there are fewer), and no dropped record has a
    greater key than a returned one. *)
Theorem rank_keeps_the_top (l r : list competitor) :
  rank l = Ok r ->
  exists dropped,
    Permutation l (r ++ dropped) /\
    List.length r = Nat.min 10 (List.length l) /\
    forall x y, In x r -> In y dropped ->
                key_ltb (key x) (key y) = false.
Proof.
  intros Hr.
  destruct (rank_sorted l r Hr) as (k & s & _ & (Hperm & Hs & _) & ->).
  exists (drop 10 s). rewrite take_drop. split; [exact Hperm|]. split.
  - rewrite length_take. now rewrite (Permutation_length Hperm).
  - intros x y Hx Hy. rewrite <- (take_drop 10 s) in Hs.
    apply (StronglySorted_app_1_elem_of _ _ _ x y Hs);
      apply list_elem_of_In; assumption.
Qed.

Lemma rank_keeps_the_top_witness :
  exists r dropped,
    rank rated_competitors = Ok r /\
    Permutation rated_competitors (r ++ dropped) /\
    List.length r = 3%nat.
Proof.
  eexists.
  destruct (rank_keeps_the_top rated_competitors _ eq_refl)
    as (dropped & Hperm & Hlen & _).
  exists dropped. split; [reflexivity|]. split; [exact Hperm | exact Hlen].
Defined.

(** X15.  On competitor records that are all rated, or all unrated, the
    ranking returns the first 10 of the stable descending sort by
    (rating, rating_count): a permutation of the records, no record
    before one with a greater key, and records with the same key in the
    order they were collected. *)
Theorem ranking_is_the_stable_descending_top_ten (l : list competitor) :
  one_kind l = true ->
  exists s, stable_descending_sort l s /\ rank l = Ok (take 10 s).
Proof. apply rank_is_stable_descending_top_10. Qed.

Lemma ranking_is_the_stable_descending_top_ten_witness :
  exists s,
    stable_descending_sort rated_competitors s /\
    rank rated_competitors = Ok (take 10 s).
Proof.
  exact (ranking_is_the_stable_descending_top_ten rated_competitors eq_refl).
Defined.

End Ranked.

(** * More on the collector *)

Section Collected.

Lemma add_app_seen (st : collection) (a : app) (i : Z) :
  i ∈ seen_apps st -> i ∈ seen_apps (add_app st a).
Proof.
  intros Hi. unfold add_app. destruct (trackId a) as [j|]; [|exact Hi].
  destruct (negb (j =? 0) && bool_decide (j ∉ seen_apps st)); [|exact Hi].
  cbn. apply elem_of_union. now right.
Qed.

Lemma add_app_marks (st : collection) (a : app) (i : Z) :
  trackId a = Some i -> i <> 0 -> i ∈ seen_apps (add_app st a).
Proof.
  intros Hid Hne. unfold add_app. rewrite Hid.
  apply Z.eqb_neq in Hne. rewrite Hne. cbn [negb andb].
  destruct (decide (i ∈ seen_apps st)) as [Hin|Hout].
  - rewrite bool_decide_eq_false_2 by tauto. exact Hin.
  - rewrite (bool_decide_eq_true_2 _ Hout). cbn.
    apply elem_of_union. left. now apply elem_of_singleton.
Qed.

Lemma fold_add_app_seen (apps : list app) (st : collection) (i : Z) :
  i ∈ seen_apps st -> i ∈ seen_apps (fold_left add_app apps st).
Proof.
  revert st. induction apps as [|a apps IH]; intros st Hi; [exact Hi|].
  cbn [fold_left]. apply IH, add_app_seen, Hi.
Qed.

Lemma fold_add_app_marks (apps : list app) (st : collection) (a : app)
  (i : Z) :
  In a apps -> trackId a = Some i -> i <> 0 ->
  i ∈ seen_apps (fold_left add_app apps st).
Proof.
  revert st. induction apps as [|b apps IH]; intros st Hin Hid Hne;
    [destruct Hin|].
  cbn [fold_left]. destruct Hin as [->|Hin].
  - apply fold_add_app_seen, add_app_marks; assumption.
  - now apply IH.
Qed.

Lemma fold_add_app_known (apps : list app) (st : collection) :
  (forall a i, In a apps -> trackId a = Some i -> i <> 0 ->
               i ∈ seen_apps st) ->
  fold_left add_app apps st = st.
Proof.
  induction apps as [|a apps IH]; intros Hknown; [reflexivity|].
  cbn [fold_left].
  assert (add_app st a = st) as ->.
  { unfold add_app. destruct (trackId a) as [i|] eqn:Hid; [|reflexivity].
    destruct (Z.eqb_spec i 0) as [->|Hne]; [reflexivity|]. cbn [negb andb].
    rewrite bool_decide_eq_false_2; [reflexivity|].
    intros Hout. apply Hout. apply (Hknown a i); auto. now left. }
  apply IH. intros b i Hb. apply Hknown. now right.
Qed.

(** X16.  A query answered twice with the same results adds nothing the
    second time: neither a competitor nor a seen identifier. *)
Theorem same_results_add_nothing (st : collection)
  (found : option search_response) :
  add_results (add_results st found) found = add_results st found.
Proof.
  rewrite !add_results_fold. apply fold_add_app_known.
  intros a i Hin Hid Hne. now apply (fold_add_app_marks _ _ a).
Qed.

Lemma add_app_in_step (st : collection) (a : app) :
  size (seen_apps st) = List.length (competitors st) ->
  size (seen_apps (add_app st a)) = List.length (competitors (add_app st a)).
Proof.
  intros Hinv. unfold add_app. destruct (trackId a) as [i|]; [|exact Hinv].
  destruct (negb (i =? 0)); cbn [andb]; [|exact Hinv].
  destruct (decide (i ∉ seen_apps st)) as [Hout|Hin].
  - rewrite (bool_decide_eq_true_2 _ Hout). cbn.
    rewrite size_union by set_solver.
    rewrite size_singleton, length_app, Hinv. cbn. lia.
  - rewrite (bool_decide_eq_false_2 _ Hin). exact Hinv.
Qed.

Lemma fold_add_app_in_step (apps : list app) (st : collection) :
  size (seen_apps st) = List.length (competitors st) ->
  size (seen_apps (fold_left add_app apps st))
  = List.length (competitors (fold_left add_app apps st)).
Proof.
  revert st. induction apps as [|a apps IH]; intros st Hinv; [exact Hinv|].
  cbn [fold_left]. apply IH, add_app_in_step, Hinv.
Qed.

(** X17.  The search loop keeps [seen_apps] and the competitor list in
    step: whatever the queries return, it ends with as many competitors
    as identifiers seen, and never with more competitors than raw
    results. *)
Theorem seen_apps_count_the_competitors
  (net : string -> outcome search_response) (terms : list string)
  (log : list line) :
  exists st log',
    collect_loop net terms nothing_collected log = (Ok st, log') /\
    size (seen_apps st) = List.length (competitors st) /\
    (List.length (competitors st)
     <= List.length (raw_results net terms))%nat.
Proof.
  rewrite collect_loop_spec. eexists _, _. split; [reflexivity|]. split.
  - apply fold_add_app_in_step. reflexivity.
  - rewrite (fold_add_app _ _ []).
    + cbn [competitors nothing_collected List.app]. rewrite length_map.
      generalize (raw_results net terms). intros apps. generalize (@nil Z).
      induction apps as [|a apps IH]; intros seen; [reflexivity|].
      cbn [List.filter]. destruct (nonzero_id a); cbn [first_occurrences].
      * destruct (trackId a) as [i|]; [|specialize (IH seen); cbn; lia].
        destruct (bool_decide (i ∈ seen)); cbn [List.length];
          [specialize (IH seen) | specialize (IH (i :: seen))]; lia.
      * specialize (IH seen). cbn [List.length]. lia.
    + intros i. cbn. rewrite elem_of_nil. split; [|tauto].
      apply not_elem_of_empty.
Qed.

(** *** [main] of the collector *)

Lemma reddit_loop_ok (net : string -> outcome value) (queries : list string)
  (log : list line) :
  is_ok (fst (reddit_loop net queries log))
  = forallb (fun query => is_ok (show_posts (delivered (net query)))) queries.
Proof.
  revert log. induction queries as [|query rest IH]; intros log; [reflexivity|].
  cbn [reddit_loop forallb]. unfold search_reddit. rewrite fetch_json_spec.
  destruct (show_posts (delivered (net query))) as [u|e]; cbn; [apply IH|].
  reflexivity.
Qed.

(** The competitors [main] hands to the ranking. *)
Lemma main_collected (app_store : string -> outcome search_response)
  (log : list line) :
  exists st log',
    collect_loop app_store search_terms nothing_collected log
    = (Ok st, log') /\
    competitors st
    = map competitor_of
        (first_occurrences []
           (List.filter nonzero_id (raw_results app_store search_terms))).
Proof.
  destruct (collect_loop_first_occurrences app_store search_terms log)
    as (st & log' & Hrun & Hc & _). eauto.
Qed.

(** The document [main] returns is made from the answers of the App
    Store alone. *)
Lemma main_document (app_store : string -> outcome search_response)
  (reddit : string -> outcome value) (log log' : list line)
  (doc : research_data) :
  Collector.main app_store reddit log = (Ok doc, log') ->
  exists ranked,
    rank (map competitor_of
            (first_occurrences []
               (List.filter nonzero_id
                  (raw_results app_store search_terms)))) = Ok ranked /\
    doc = {| research_date := "October 24, 2025";
             mixcam := find_mixcam (delivered (app_store "mixcam dual camera"));
             ranked_competitors := ranked;
             market_insights :=
               [("standard_features", []); ("innovative_features", []);
                ("user_complaints", []); ("pricing_models", []);
                ("ui_trends", [])] |}.
Proof.
  unfold Collector.main. unfold search_app_store at 1.
  rewrite fetch_json_spec.
  destruct (main_collected app_store
              (log ++ logged "App Store search error"
                        (app_store "mixcam dual camera")))
    as (st & log1 & -> & Hc).
  rewrite Hc.
  destruct (rank _) as [ranked|e]; [|discriminate].
  destruct (reddit_loop reddit reddit_queries log1) as [[u|e] log2];
    [|discriminate].
  intros [= <- _]. eauto.
Qed.

(** X18.  [main] of the collector returns its document exactly when the
    collected competitors are all rated or all unrated and the posts shown
    for each discussion query can be read; failed requests do not
    matter. *)
Theorem collector_returns_iff
  (app_store : string -> outcome search_response)
  (reddit : string -> outcome value) (log : list line) :
  is_ok (fst (Collector.main app_store reddit log))
  = one_kind
      (map competitor_of
         (first_occurrences []
            (List.filter nonzero_id (raw_results app_store search_terms))))
    && forallb (fun query => is_ok (show_posts (delivered (reddit query))))
         reddit_queries.
Proof.
  unfold Collector.main. unfold search_app_store at 1.
  rewrite fetch_json_spec.
  destruct (main_collected app_store
              (log ++ logged "App Store search error"
                        (app_store "mixcam dual camera")))
    as (st & log1 & -> & Hc).
  rewrite Hc, <- rank_defined_iff_one_kind.
  destruct (rank _) as [ranked|e]; cbn [is_ok andb fst]; [|reflexivity].
  rewrite <- (reddit_loop_ok reddit reddit_queries log1).
  destruct (reddit_loop reddit reddit_queries log1) as [[u|e] log2];
    reflexivity.
Qed.

(** X19.  The discussions leave no trace in the document: two runs of
    [main] that get the same answers from the App Store return the same
    document, whatever the discussion search answers and whatever was
    printed. *)
Theorem discussions_leave_no_trace
  (app_store : string -> outcome search_response)
  (reddit1 reddit2 : string -> outcome value)
  (log1 log2 log1' log2' : list line) (doc1 doc2 : research_data) :
  Collector.main app_store reddit1 log1 = (Ok doc1, log1') ->
  Collector.main app_store reddit2 log2 = (Ok doc2, log2') ->
  doc1 = doc2.
Proof.
  intros H1 H2.
  destruct (main_document _ _ _ _ _ H1) as (r1 & Hr1 & ->).
  destruct (main_document _ _ _ _ _ H2) as (r2 & Hr2 & ->).
  congruence.
Qed.

(** X20.  The document [main] returns: the fixed date, as target app the
    record of the first result of the search for "mixcam dual camera"
    whose name contains "mixcam" in any case (none when the search failed
    or no result matches), as competitors the ranking of the collected
    ones, which are at most 10, and five empty insight lists. *)
Theorem collector_document
  (app_store : string -> outcome search_response)
  (reddit : string -> outcome value) (log log' : list line)
  (doc : research_data) :
  Collector.main app_store reddit log = (Ok doc, log') ->
  research_date doc = "October 24, 2025" /\
  mixcam doc
  = Mixcam.of_app
      <$> List.find is_mixcam
            (apps_of (delivered (app_store "mixcam dual camera"))) /\
  rank (map competitor_of
          (first_occurrences []
             (List.filter nonzero_id (raw_results app_store search_terms))))
  = Ok (ranked_competitors doc) /\
  (List.length (ranked_competitors doc) <= 10)%nat /\
  map fst (market_insights doc)
  = ["standard_features"; "innovative_features"; "user_complaints";
     "pricing_models"; "ui_trends"] /\
  Forall (fun kv => snd kv = []) (market_insights doc).
Proof.
  intros H. destruct (main_document _ _ _ _ _ H) as (ranked & Hr & ->).
  cbn. split; [reflexivity|]. split; [reflexivity|]. split; [exact Hr|].
  split.
  - unfold rank in Hr. apply bind_ok in Hr as (s & _ & [= <-]).
    rewrite length_take. lia.
  - split; [reflexivity|]. repeat constructor.
Qed.

Lemma fetch_json_200 {B : Type} (prefix : string) (body : option B)
  (log : list line) :
  fetch_json prefix (Response 200 body) log
  = match body with
    | Some data => (Ok (Some data), log)
    | None => (Ok None, log ++ [(prefix, JSONDecodeError)])
    end.
Proof. destruct body; reflexivity. Qed.

(** X21.  On an answer with status 200 each of the three fetch functions
    returns the JSON body and prints nothing; when the body is not JSON it
    returns [None] and prints one line, with its own prefix and the
    decoding error. *)
Theorem fetch_on_a_200_answer :
  (forall net query log body,
     net query = Response 200 body ->
     search_app_store net query log
     = match body with
       | Some data => (Ok (Some data), log)
       | None =>
           (Ok None, log ++ [("App Store search error", JSONDecodeError)])
       end) /\
  (forall (B : Type) (net : Z -> outcome B) app_id log body,
     net app_id = Response 200 body ->
     get_app_details net app_id log
     = match body with
       | Some data => (Ok (Some data), log)
       | None => (Ok None, log ++ [("App details error", JSONDecodeError)])
       end) /\
  (forall (B : Type) (net : string -> outcome B) query log body,
     net query = Response 200 body ->
     search_reddit net query log
     = match body with
       | Some data => (Ok (Some data), log)
       | None => (Ok None, log ++ [("Reddit search error", JSONDecodeError)])
       end).
Proof.
  repeat split; intros; unfold search_app_store, get_app_details,
    search_reddit; rewrite H; apply fetch_json_200.
Qed.

Lemma fetch_on_a_200_answer_witness :
  search_app_store store_net "mixcam dual camera" []
  = (Ok (Some (SearchResponse (Some [rated_app; mixcam_app]))), []).
Proof.
  exact (proj1 fetch_on_a_200_answer store_net "mixcam dual camera" []
           _ eq_refl).
Defined.

Lemma take_str_short (n : nat) (s : string) :
  (String.length s <= n)%nat -> take_str n s = s.
Proof.
  revert s. induction n as [|n IH]; intros [|c s]; simpl; intros H;
    try reflexivity; try lia.
  rewrite IH by lia. reflexivity.
Qed.

(** X22.  The descriptions stored are capped: a competitor record keeps
    at most 200 characters of the description and the target record at
    most 500; a description within the cap is stored whole, and a missing
    one as the empty text. *)
Theorem stored_descriptions_are_capped (a : app) :
  (String.length (description_snippet (competitor_of a)) <= 200)%nat /\
  (String.length (Mixcam.description (Mixcam.of_app a)) <= 500)%nat /\
  (forall s, description a = Some s ->
     ((String.length s <= 200)%nat ->
      description_snippet (competitor_of a) = s) /\
     ((String.length s <= 500)%nat ->
      Mixcam.description (Mixcam.of_app a) = s)) /\
  (description a = None ->
   description_snippet (competitor_of a) = "" /\
   Mixcam.description (Mixcam.of_app a) = "").
Proof.
  unfold competitor_of, Mixcam.of_app.
  cbn [description_snippet Mixcam.description]. repeat split.
  - rewrite length_take_str. apply Nat.le_min_l.
  - rewrite length_take_str. apply Nat.le_min_l.
  - rewrite H. now apply take_str_short.
  - rewrite H. now apply take_str_short.
  - now rewrite H.
  - now rewrite H.
Qed.

Lemma stored_descriptions_are_capped_witness :
  String.length (description_snippet (competitor_of mixcam_app)) = 200%nat /\
  String.length (Mixcam.description (Mixcam.of_app mixcam_app)) = 500%nat /\
  description_snippet (competitor_of rated_app) = "".
Proof.
  split; [vm_compute; reflexivity|]. split; [vm_compute; reflexivity|].
  exact (proj1 (proj2 (proj2 (proj2
           (stored_descriptions_are_capped rated_app))) eq_refl)).
Defined.

Lemma collector_returns_iff_witness :
  is_ok (fst (Collector.main store_net reddit_net [])) = true /\
  is_ok (fst (Collector.main (net_finding [rated_app; unrated_app])
                reddit_net [])) = false.
Proof.
  split.
  - rewrite (collector_returns_iff store_net reddit_net []).
    vm_compute. reflexivity.
  - rewrite (collector_returns_iff (net_finding [rated_app; unrated_app])
               reddit_net []).
    vm_compute. reflexivity.
Defined.

Lemma discussions_leave_no_trace_witness :
  exists doc1 doc2 log1 log2,
    Collector.main store_net reddit_net [] = (Ok doc1, log1) /\
    Collector.main store_net no_net [] = (Ok doc2, log2) /\
    doc1 = doc2.
Proof.
  eexists _, _, _, _. split; [vm_compute; reflexivity|].
  split; [vm_compute; reflexivity|].
  exact (discussions_leave_no_trace store_net reddit_net no_net [] []
           _ _ _ _ eq_refl eq_refl).
Defined.

Lemma collector_document_witness :
  exists doc log',
    Collector.main store_net reddit_net [] = (Ok doc, log') /\
    mixcam doc = Some (Mixcam.of_app mixcam_app) /\
    (List.length (ranked_competitors doc) <= 10)%nat.
Proof.
  eexists _, _. split; [vm_compute; reflexivity|].
  destruct (collector_document store_net reddit_net [] _ _ eq_refl)
    as (_ & Hm & _ & Hlen & _).
  split; [refine (eq_trans Hm _); vm_compute; reflexivity | exact Hlen].
Defined.

End Collected.

(** * The enricher on a document of the collector *)

Section Pipeline.

Lemma competitor_loop_collected (cs : list competitor) :
  competitor_loop (map competitor_to_value cs)
  = if forallb named cs then Ok tt else Raise TypeError.
Proof.
  induction cs as [|c cs IH]; [reflexivity|].
  cbn [map competitor_loop forallb]. unfold competitor_test, named at 1.
  unfold competitor_to_value at 1 2 3. cbn [getitem assoc String.eqb].
  cbn. destruct (name c) as [n|]; cbn; [|reflexivity].
  destruct (contains "Dual" n); cbn; [exact IH|].
  destruct (contains "2Cam" n); cbn; exact IH.
Qed.

Lemma named_competitors (cs : list competitor) :
  forallb named cs = true ->
  Forall (fun c => exists n, getitem c "name" = Ok (VStr n))
    (map competitor_to_value cs).
Proof.
  induction cs as [|c cs IH]; cbn [forallb map]; intros H; constructor.
  - apply andb_true_iff in H as [H _]. unfold named in H.
    unfold competitor_to_value. cbn. destruct (name c) as [n|]; [|discriminate].
    eauto.
  - apply andb_true_iff in H as [_ H]. exact (IH H).
Qed.

(** The rest of the enricher, on a document of the collector, returns
    exactly when the reviews are well-formed and the first five
    competitors have a name. *)
Lemma enrich_collected (doc : research_data) (reviews : list value) :
  is_ok (enrich (document_to_value doc) reviews)
  = forallb well_formed reviews
    && forallb named (take 5 (ranked_competitors doc)).
Proof.
  destruct (forallb well_formed reviews) eqn:Hwf; cbn [andb].
  - destruct (forallb named (take 5 (ranked_competitors doc))) eqn:Hn.
    + assert (exists target,
                getitem (document_to_value doc) "mixcam" = Ok (VDict target))
        as [target Ht]
        by (cbn; unfold mixcam_to_value; destruct (mixcam doc); eauto).
      destruct (enrich_returns (document_to_value doc) reviews
                  (map competitor_to_value (ranked_competitors doc))
                  target
                  (map (fun kv => (fst kv, VList (snd kv)))
                     (market_insights doc))
                  Hwf eq_refl) as [out ->]; try reflexivity.
      * rewrite firstn_map. apply named_competitors, Hn.
      * exact Ht.
    + rewrite <- analyze_reviews_ok in Hwf. apply is_ok_true in Hwf.
      destruct Hwf as [[[cs fs] ps] Han].
      unfold enrich. rewrite Han. cbn [bind].
      change (getitem (document_to_value doc) "competitors")
        with (Ok (VList (map competitor_to_value (ranked_competitors doc)))).
      cbn [bind slice_to iterate].
      rewrite firstn_map, competitor_loop_collected, Hn. reflexivity.
  - rewrite <- analyze_reviews_ok in Hwf. unfold enrich.
    destruct (analyze_reviews reviews); [discriminate | reflexivity].
Qed.

(** [main] of the enricher on a document of the collector. *)
Lemma enricher_main_collected
  (net : value -> nat -> outcome value) (doc : research_data)
  (log : list line) :
  match mixcam doc with
  | None =>
      Enricher.main net (document_to_value doc) log = (Raise KeyError, log)
  | Some target =>
      is_ok (fst (Enricher.main net (document_to_value doc) log))
      = forallb well_formed
          (fst (pages_loop net
                  match Mixcam.app_id target with
                  | Some i => VInt i
                  | None => VNone
                  end (seq 1 5) []))
        && forallb named (take 5 (ranked_competitors doc))
  end.
Proof.
  destruct (mixcam doc) as [target|] eqn:Hm.
  - unfold Enricher.main.
    assert (getitem2 (document_to_value doc) "mixcam" "app_id"
            = Ok match Mixcam.app_id target with
                 | Some i => VInt i
                 | None => VNone
                 end) as ->
      by (unfold document_to_value, getitem2; cbn; rewrite Hm; reflexivity).
    unfold get_app_reviews.
    destruct (pages_loop net _ (seq 1 5) []) as [reviews [e|]];
      cbn [fst]; apply enrich_collected.
  - unfold Enricher.main.
    assert (getitem2 (document_to_value doc) "mixcam" "app_id"
            = Raise KeyError) as ->
      by (unfold document_to_value, getitem2; cbn; rewrite Hm; reflexivity).
    reflexivity.
Qed.


(** X24.  A run of the collector in which the search for the target app
    fails, or finds no app with "mixcam" in its name, leaves a document
    the enricher cannot use: it raises [KeyError]. *)
Theorem enricher_needs_the_target_app
  (app_store : string -> outcome search_response)
  (reddit : string -> outcome value) (net : value -> nat -> outcome value)
  (doc : research_data) (log log' log0 : list line) :
  Collector.main app_store reddit log = (Ok doc, log') ->
  List.find is_mixcam (apps_of (delivered (app_store "mixcam dual camera")))
  = None ->
  Enricher.main net (document_to_value doc) log0 = (Raise KeyError, log0).
Proof.
  intros Hmain Hnone.
  destruct (main_document _ _ _ _ _ Hmain) as (ranked & _ & Hdoc).
  assert (mixcam doc = None) as Hm
    by (rewrite Hdoc; cbn; unfold find_mixcam; now rewrite Hnone).
  pose proof (enricher_main_collected net doc log0) as H.
  now rewrite Hm in H.
Qed.


Lemma enricher_needs_the_target_app_witness :
  exists doc log',
    Collector.main (net_finding [rated_app]) no_net [] = (Ok doc, log') /\
    Enricher.main reviews_net (document_to_value doc) []
    = (Raise KeyError, []).
Proof.
  eexists _, _. split; [vm_compute; reflexivity|].
  exact (enricher_needs_the_target_app (net_finding [rated_app]) no_net
           reviews_net _ [] _ [] eq_refl eq_refl).
Defined.

End Pipeline.

(** * The discussion stage *)

Section Discussions.

Lemma post_loop_fine (posts : list value) :
  Forall (fun post =>
            exists post_data,
              dict_get post "data" (VDict []) = Ok (VDict post_data) /\
              (assoc "title" post_data = None \/
               exists title, assoc "title" post_data = Some (VStr title)))
    posts ->
  post_loop posts = Ok tt.
Proof.
  induction 1 as [|post posts (post_data & Hd & Ht) _ IH]; [reflexivity|].
  cbn [post_loop]. unfold post_step. rewrite Hd. cbn [bind dict_get].
  destruct Ht as [->|[title ->]]; cbn; exact IH.
Qed.

(** X25.  The posts of a discussion answer are shown without an
    exception when the answer is an object with a list under
    [data.children] and each of the first three posts is an object whose
    [data] is missing or an object with a missing or str [title]; posts
    after the third are not looked at, and an answer without children
    shows nothing. *)
Theorem posts_are_shown (listing data : list (string * value))
  (children : list value) :
  listing <> [] ->
  assoc "data" listing = Some (VDict data) ->
  (assoc "children" data = Some (VList children) /\
   Forall (fun post =>
             exists post_data,
               dict_get post "data" (VDict []) = Ok (VDict post_data) /\
               (assoc "title" post_data = None \/
                exists title, assoc "title" post_data = Some (VStr title)))
     (take 3 children)) \/
  assoc "children" data = None ->
  show_posts (Some (VDict listing)) = Ok tt.
Proof.
  intros Hne Hdata Hchildren. unfold show_posts.
  destruct listing as [|kv listing]; [congruence|]. cbn [truthy].
  cbn [dict_get getitem]. rewrite Hdata. cbn [bind dict_get getitem].
  destruct Hchildren as [[Hc Hposts]| ->]; [|reflexivity].
  rewrite Hc. cbn [truthy bind].
  destruct children as [|post children]; [reflexivity|].
  cbn [bind slice_to iterate]. exact (post_loop_fine _ Hposts).
Qed.

Lemma posts_are_shown_witness :
  show_posts (delivered (reddit_net "mixcam app review")) = Ok tt.
Proof.
  assert (exists listing,
            delivered (reddit_net "mixcam app review") = Some (VDict listing)
            /\ show_posts (Some (VDict listing)) = Ok tt)
    as (listing & -> & H); [|exact H].
  eexists. split; [vm_compute; reflexivity|].
  eapply posts_are_shown.
  - discriminate.
  - reflexivity.
  - left. split; [reflexivity|].
    repeat constructor. eexists. split; [reflexivity|].
    right. eexists. reflexivity.
Defined.

End Discussions.
